(** * sbi.utils.sensitivity_analysis: the regression-net training loop

    A shallow embedding of [src/sbi/utils/sensitivity_analysis.py]
    ([data_loader] and [fit_regression_net]) together with the properties
    their specification states about them.

    Python values are modelled as the interpreter has them: [int] is [Z],
    [float] is an IEEE-754 binary64 number ([spec_float] at precision 53,
    maximal exponent 1024, with the operations of [SpecFloat]), exceptions
    are an error monad, and the random generator is threaded explicitly. *)

From Stdlib Require Import ZArith List Bool Lia Permutation SpecFloat.
Import ListNotations.
Open Scope Z_scope.

(** ** Python: exceptions, numbers, slices *)

Module Py.

Inductive exn :=
| ZeroDivisionError
| OverflowError
| ValueError
| AssertionError
| InvalidStateDict.

Inductive result (A : Type) :=
| Ok (a : A)
| Raise (e : exn).
Arguments Ok {A} a.
Arguments Raise {A} e.

Definition bind {A B} (r : result A) (k : A -> result B) : result B :=
  match r with
  | Ok a => k a
  | Raise e => Raise e
  end.

(** [float]: binary64. *)
Definition float := spec_float.
Definition prec := 53.
Definition emax := 1024.

Definition fadd : float -> float -> float := SFadd prec emax.
Definition fsub : float -> float -> float := SFsub prec emax.
Definition fmul : float -> float -> float := SFmul prec emax.
Definition fdiv : float -> float -> float := SFdiv prec emax.
(** [x < y] on floats: false as soon as one side is NaN. *)
Definition flt : float -> float -> bool := SFltb.

Definition nan : float := S754_nan.
Definition is_finite (x : float) : bool :=
  match x with
  | S754_zero _ | S754_finite _ _ _ => true
  | S754_infinity _ | S754_nan => false
  end.

(** The nearest binary64 number to an integer (ties to even); an
    infinity when the integer is beyond the range of [float]. *)
Definition Z2F (z : Z) : float := binary_normalize prec emax z 0 false.

(** [float(z)], the conversion applied to an [int] operand of mixed
    arithmetic: OverflowError when the integer is too large. *)
Definition float_of_int (z : Z) : result float :=
  match Z2F z with
  | S754_infinity _ => Raise OverflowError
  | f => Ok f
  end.

(** [int(x)]: truncation toward zero; ValueError on NaN, OverflowError
    on an infinity. *)
Definition int_of_float (x : float) : result Z :=
  match x with
  | S754_nan => Raise ValueError
  | S754_infinity _ => Raise OverflowError
  | S754_zero _ => Ok 0
  | S754_finite s m e =>
      Ok (cond_Zopp s
            (match e with
             | Zneg p => Z.shiftr (Zpos m) (Zpos p)
             | _ => Z.shiftl (Zpos m) e
             end))
  end.

(** A number as an accumulator holds it: the literal [0] is an [int],
    and becomes a [float] once a float has been added to it. *)
Inductive num :=
| Int (z : Z)
| Float (f : float).

(** [acc + x] for a float [x] (the only integer accumulator that ever
    occurs is the literal 0, whose conversion is exact). *)
Definition num_add (acc : num) (x : float) : num :=
  match acc with
  | Int z => Float (fadd (Z2F z) x)
  | Float f => Float (fadd f x)
  end.

(** An integer as an exact (unrounded) binary number. *)
Definition exactZ (z : Z) : float :=
  match z with
  | Z0 => S754_zero false
  | Zpos p => S754_finite false p 0
  | Zneg p => S754_finite true p 0
  end.

(** [acc / d] for an [int] divisor [d] (true division).  A zero divisor
    raises ZeroDivisionError for an [int] and for a [float] numerator
    alike; an [int] numerator gives the rounded quotient of the two
    integers, a [float] numerator divides by [float(d)]. *)
Definition true_divide (acc : num) (d : Z) : result float :=
  if d =? 0 then Raise ZeroDivisionError
  else
    match acc with
    | Int a =>
        match fdiv (exactZ a) (exactZ d) with
        | S754_infinity _ => Raise OverflowError
        | q => Ok q
        end
    | Float f => bind (float_of_int d) (fun fd => Ok (fdiv f fd))
    end.

(** Slice bounds: a negative bound counts from the end, and every bound
    is clipped to the sequence. *)
Definition slice_bound (len : nat) (k : Z) : nat :=
  if k <? 0 then Z.to_nat (Z.max 0 (Z.of_nat len + k))
  else Nat.min (Z.to_nat k) len.

(** [xs[:k]] and [xs[k:]]. *)
Definition slice_to {A} (xs : list A) (k : Z) : list A :=
  firstn (slice_bound (length xs) k) xs.
Definition slice_from {A} (xs : list A) (k : Z) : list A :=
  skipn (slice_bound (length xs) k) xs.

End Py.
Import Py.

Notation "x <- c1 ;; c2" := (Py.bind c1 (fun x => c2))
  (at level 61, c1 at next level, right associativity).
Notation "' pat <- c1 ;; c2" :=
  (Py.bind c1 (fun x => match x with pat => c2 end))
  (at level 61, pat pattern, c1 at next level, right associativity).

(** The literal [1e10] (an integer below 2^53, so exactly representable). *)
Definition f1e10 : float := Eval vm_compute in Z2F 10000000000.
(** The literal [0.1]: 0x1.999999999999ap-4. *)
Definition f0_1 : float := S754_finite false 7205759403792794 (-56).

(** ** torch.utils.data: the batch sampler

    [BatchSampler(sampler, batch_size, drop_last=True)] appends the indices
    the sampler yields to a pending batch, yields the batch as soon as it
    holds [batch_size] indices, and discards what is pending at the end. *)

Fixpoint batch_sampler (bs : nat) (batch : list nat) (idxs : list nat)
  : list (list nat) :=
  match idxs with
  | [] => []
  | idx :: rest =>
      let batch' := batch ++ [idx] in
      if (length batch' =? bs)%nat
      then batch' :: batch_sampler bs [] rest
      else batch_sampler bs batch' rest
  end.

(** What the training loop hands back: the network it returns, the
    exception it raises, or nothing yet when the fuel of the model ran out
    before the loop converged. *)
Inductive outcome (Net : Type) :=
| Returned (net : Net)
| Raised (e : exn)
| OutOfFuel.
Arguments Returned {Net} net.
Arguments Raised {Net} e.
Arguments OutOfFuel {Net}.

Set Implicit Arguments.

Section Model.

(** The collaborators the code is handed: rows of the two arrays, the
    parameters of the network (its [state_dict]), the state of the
    optimizer and the state of torch's random generator. *)
Variables Row Target StateDict Opt Gen : Type.

(** [TensorDataset(theta, label)], shared by both loaders. *)
Record Dataset := { ds_theta : list Row; ds_label : list Target }.

(** A [DataLoader] over a [SubsetRandomSampler(indices)] with
    [drop_last=True].  A minibatch is the list of dataset indices the
    batch sampler yields; the tensors are fetched from [dataset]. *)
Record DataLoader := {
  dataset : Dataset;
  batch_size : Z;
  indices : list nat
}.

(** Everything an epoch mutates in place. *)
Record World := {
  neural_net : StateDict;
  optimizer : Opt;
  generator : Gen
}.

(** [torch.randperm(n)] from a generator state. *)
Variable randperm : Gen -> nat -> list nat * Gen.
(** [optim.Adam(neural_net.parameters(), lr)]. *)
Variable Adam : StateDict -> float -> Opt.
(** One optimisation step (lines 85-90) on a minibatch in training
    mode: [loss.item()] and the updated world. *)
Variable train_step : Dataset -> list nat -> World -> float * World.
(** [criterion(neural_net(parameters), observations).item()] in
    evaluation mode under [torch.no_grad()]. *)
Variable eval_loss : Dataset -> list nat -> StateDict -> float.

(** *** data_loader *)

(** [TensorDataset] asserts that its tensors have the same length. *)
Definition TensorDataset (theta : list Row) (label : list Target)
  : result Dataset :=
  if (length theta =? length label)%nat
  then Ok {| ds_theta := theta; ds_label := label |}
  else Raise AssertionError.

(** [DataLoader(dataset, batch_size=bs, drop_last=True,
    sampler=SubsetRandomSampler(idxs))]: the batch sampler rejects a
    batch size that is not positive. *)
Definition new_DataLoader (ds : Dataset) (bs : Z) (idxs : list nat)
  : result DataLoader :=
  if bs <=? 0 then Raise ValueError
  else Ok {| dataset := ds; batch_size := bs; indices := idxs |}.

(** One pass over [SubsetRandomSampler(idxs)]:
    [indices[i] for i in torch.randperm(len(indices))]. *)
Definition subset_random_sampler (idxs : list nat) (g : Gen)
  : list nat * Gen :=
  let (p, g') := randperm g (length idxs) in
  (map (fun i => nth i idxs 0%nat) p, g').

(** [iter(loader)]: the minibatches of one pass. *)
Definition iterate (ld : DataLoader) (g : Gen) : list (list nat) * Gen :=
  let (order, g') := subset_random_sampler (indices ld) g in
  (batch_sampler (Z.to_nat (batch_size ld)) [] order, g').

Record Loaders := {
  train_loader : DataLoader;
  val_loader : DataLoader;
  num_validation_examples : Z
}.

(** Lines 160-168: the permutation and its two slices. *)
Definition split_indices (num_examples : nat) (validation_fraction : float)
           (g : Gen) : result (list nat * list nat * Z * Gen) :=
  let (permuted_indices, g') := randperm g num_examples in
  x <- float_of_int (Z.of_nat num_examples) ;;
  num_training_examples <-
    int_of_float (fmul (fsub (Z2F 1) validation_fraction) x) ;;
  Ok (slice_to permuted_indices num_training_examples,
      slice_from permuted_indices num_training_examples,
      num_training_examples, g').

Definition data_loader (theta : list Row) (stats : list Target)
           (num_train : Z) (batch_size : Z) (validation_fraction : float)
           (g : Gen) : result (Loaders * Gen) :=
  let subsampled_theta := slice_to theta num_train in
  let subsampled_label := slice_to stats num_train in
  let num_examples := length subsampled_theta in
  '(train_indices, val_indices, num_training_examples, g') <-
    split_indices num_examples validation_fraction g ;;
  let num_validation_examples :=
    Z.of_nat num_examples - num_training_examples in
  ds <- TensorDataset subsampled_theta subsampled_label ;;
  train_loader <- new_DataLoader ds batch_size train_indices ;;
  val_loader <-
    new_DataLoader ds
      (Z.min batch_size (Z.of_nat num_examples - num_training_examples))
      val_indices ;;
  Ok ({| train_loader := train_loader;
         val_loader := val_loader;
         num_validation_examples := num_validation_examples |}, g').

(** *** fit_regression_net *)

(** The local variables of the loop (lines 69-78) next to the world. *)
Record LoopState := {
  world : World;
  best_validation_log_prob : float;
  epochs_since_last_improvement : Z;
  best_model_state_dict : option StateDict;
  epochs : Z;
  converged : bool
}.

(** What an epoch prints (lines 107-108), and the parameters the network
    held when the improvement check of that epoch ran. *)
Record EpochLog := {
  total_train_loss : float;
  validation_loss : float;
  checked_state : StateDict
}.

Section Loop.

Variable loaders : Loaders.
Variables num_train stop_after_epochs max_epochs : Z.

(** Lines 84-90: the steps of one training pass, accumulating
    [loss.item()] from the integer 0. *)
Definition train_batches (batches : list (list nat)) (w : World)
  : num * World :=
  fold_left
    (fun (acc : num * World) (b : list nat) =>
       let (loss, w') :=
         train_step (dataset (train_loader loaders)) b (snd acc) in
       (num_add (fst acc) loss, w'))
    batches (Int 0, w).

(** Lines 82-91. *)
Definition training_pass (w : World) : result (float * World) :=
  let (batches, g) := iterate (train_loader loaders) (generator w) in
  let w0 := {| neural_net := neural_net w; optimizer := optimizer w;
               generator := g |} in
  let (total, w') := train_batches batches w0 in
  loss <- true_divide total (num_train - num_validation_examples loaders) ;;
  Ok (loss, w').

(** Lines 96-104. *)
Definition validation_pass (w : World) : result (float * World) :=
  let (batches, g) := iterate (val_loader loaders) (generator w) in
  let total :=
    fold_left
      (fun (acc : num) (b : list nat) =>
         num_add acc
           (eval_loss (dataset (val_loader loaders)) b (neural_net w)))
      batches (Int 0) in
  loss <- true_divide total (num_validation_examples loaders) ;;
  Ok (loss, {| neural_net := neural_net w; optimizer := optimizer w;
               generator := g |}).

(** Lines 109-115.  The snapshot is a [deepcopy] of the [state_dict]: a
    value that later optimisation steps do not change. *)
Definition improvement_check (st : LoopState) (w : World)
           (validation_loss : float) (epochs' : Z) : LoopState :=
  if flt validation_loss (best_validation_log_prob st) then
    {| world := w;
       best_validation_log_prob := validation_loss;
       epochs_since_last_improvement := 0;
       best_model_state_dict := Some (neural_net w);
       epochs := epochs';
       converged := converged st |}
  else
    {| world := w;
       best_validation_log_prob := best_validation_log_prob st;
       epochs_since_last_improvement := epochs_since_last_improvement st + 1;
       best_model_state_dict := best_model_state_dict st;
       epochs := epochs';
       converged := converged st |}.

(** [neural_net.load_state_dict(best_model_state_dict); converged = True]:
    loading [None] raises. *)
Definition load_and_converge (st : LoopState) : result LoopState :=
  match best_model_state_dict st with
  | None => Raise InvalidStateDict
  | Some sd =>
      Ok {| world := {| neural_net := sd;
                        optimizer := optimizer (world st);
                        generator := generator (world st) |};
            best_validation_log_prob := best_validation_log_prob st;
            epochs_since_last_improvement := epochs_since_last_improvement st;
            best_model_state_dict := best_model_state_dict st;
            epochs := epochs st;
            converged := true |}
  end.

(** Lines 117-124. *)
Definition termination_check (st : LoopState) : result LoopState :=
  st1 <- (if epochs st >? max_epochs then load_and_converge st else Ok st) ;;
  (if epochs_since_last_improvement st1 >? stop_after_epochs - 1
   then load_and_converge st1 else Ok st1).

(** One of the two conditions of lines 117 and 122 holds. *)
Definition stops (st : LoopState) : bool :=
  (epochs st >? max_epochs)
  || (epochs_since_last_improvement st >? stop_after_epochs - 1).

(** Lines 81-115: the two passes and the improvement check. *)
Definition epoch (st : LoopState) : result (LoopState * EpochLog) :=
  '(train_loss, w1) <- training_pass (world st) ;;
  let epochs' := epochs st + 1 in
  '(val_loss, w2) <- validation_pass w1 ;;
  Ok (improvement_check st w2 val_loss epochs',
      {| total_train_loss := train_loss;
         validation_loss := val_loss;
         checked_state := neural_net w2 |}).

(** [while not converged: ...; return best_net] (lines 79-126).
    [best_net] is the object [neural_net] itself, so what is returned is
    the network as the last iteration left it.  One unit of fuel pays for
    one entry into the loop body. *)
Fixpoint while_not_converged (fuel : nat) (st : LoopState)
  : outcome StateDict * list EpochLog :=
  if converged st then (Returned (neural_net (world st)), [])
  else
    match fuel with
    | O => (OutOfFuel, [])
    | S fuel' =>
        match epoch st with
        | Raise e => (Raised e, [])
        | Ok (st1, l) =>
            match termination_check st1 with
            | Raise e => (Raised e, [l])
            | Ok st2 =>
                let (o, ls) := while_not_converged fuel' st2 in
                (o, l :: ls)
            end
        end
    end.

(** What the next [n] epochs print when nothing stops the training: the
    two passes alone, without the checks. *)
Fixpoint forecast (n : nat) (w : World) : result (list EpochLog) :=
  match n with
  | O => Ok []
  | S n' =>
      '(train_loss, w1) <- training_pass w ;;
      '(val_loss, w2) <- validation_pass w1 ;;
      ls <- forecast n' w2 ;;
      Ok ({| total_train_loss := train_loss;
             validation_loss := val_loss;
             checked_state := neural_net w2 |} :: ls)
  end.

(** The values of [loss.item()] along one training pass, each computed
    on the parameters the previous steps left. *)
Fixpoint batch_losses (batches : list (list nat)) (w : World) : list float :=
  match batches with
  | [] => []
  | b :: rest =>
      let (loss, w') := train_step (dataset (train_loader loaders)) b w in
      loss :: batch_losses rest w'
  end.

End Loop.

(** Lines 69-78. *)
Definition initial_state (w : World) : LoopState :=
  {| world := w;
     best_validation_log_prob := f1e10;
     epochs_since_last_improvement := 0;
     best_model_state_dict := None;
     epochs := 0;
     converged := false |}.

Definition fit_regression_net (fuel : nat)
           (neural_net : StateDict) (theta : list Row) (label : list Target)
           (num_train batch_size : Z)
           (learning_rate validation_fraction : float)
           (stop_after_epochs max_epochs : Z) (g : Gen)
  : outcome StateDict * list EpochLog :=
  match data_loader theta label num_train batch_size validation_fraction g with
  | Raise e => (Raised e, [])
  | Ok (loaders, g') =>
      let optimizer := Adam neural_net learning_rate in
      while_not_converged loaders num_train stop_after_epochs max_epochs fuel
        (initial_state {| neural_net := neural_net;
                          optimizer := optimizer;
                          generator := g' |})
  end.

(** Every loss of a list is strictly below its predecessor, the first
    one below [best]. *)
Fixpoint decreasing (best : float) (ls : list EpochLog) : bool :=
  match ls with
  | [] => true
  | l :: rest =>
      flt (validation_loss l) best && decreasing (validation_loss l) rest
  end.

(** No loss of a list is strictly below [best]. *)
Definition never_below (best : float) (ls : list EpochLog) : bool :=
  forallb (fun l => negb (flt (validation_loss l) best)) ls.

(** The invariant of the loop over the epochs logged so far: either no
    snapshot was taken and no loss was below the sentinel, or the snapshot
    and the best loss are those of a logged epoch that no logged loss is
    below. *)
Definition best_so_far (past : list EpochLog) (st : LoopState) : Prop :=
  match best_model_state_dict st with
  | None =>
      best_validation_log_prob st = f1e10 /\ never_below f1e10 past = true
  | Some sd =>
      exists l, In l past /\ sd = checked_state l /\
                best_validation_log_prob st = validation_loss l /\
                flt (validation_loss l) f1e10 = true /\
                never_below (validation_loss l) past = true
  end.

(** The snapshot and the best loss after a run of improving epochs. *)
Definition last_snapshot (sd : option StateDict) (obs : list EpochLog)
  : option StateDict :=
  fold_left (fun _ l => Some (checked_state l)) obs sd.
Definition last_loss (v : float) (obs : list EpochLog) : float :=
  fold_left (fun _ l => validation_loss l) obs v.

End Model.

Unset Implicit Arguments.

(** A divisor on which [true_divide] raises nothing: not zero, and within
    the range of [float]. *)
Definition divisor_ok (d : Z) : bool := negb (d =? 0) && is_finite (Z2F d).

(** ** A scripted world

    Concrete collaborators on which the definitions run: a generator that
    hands out the rotations of [0, n) in turn, a network whose parameters
    count the optimisation steps taken so far, and validation losses read
    off a script (the loss after [k] steps is the [k]-th entry). *)

Module Scripted.

Definition rotate (k n : nat) : list nat :=
  skipn (k mod n) (seq 0 n) ++ firstn (k mod n) (seq 0 n).

Definition randperm (g : nat) (n : nat) : list nat * nat :=
  (rotate g n, S g).

Definition Adam (sd : nat) (lr : float) : unit := tt.

Definition train_step (ds : Dataset unit unit) (b : list nat)
           (w : World nat unit nat) : float * World nat unit nat :=
  (Z2F 1, {| neural_net := S (neural_net w);
             optimizer := optimizer w;
             generator := generator w |}).

Definition eval_loss (script : list float) (ds : Dataset unit unit)
           (b : list nat) (sd : nat) : float :=
  nth (sd - 1) script nan.

(** The literal [0.5]. *)
Definition f0_5 : float := Eval vm_compute in fdiv (Z2F 1) (Z2F 2).

(** [fit_regression_net] on two samples, one for training and one for
    validation, so that each epoch takes one step and reports the
    scripted loss. *)
Definition fit (script : list float) (stop_after_epochs max_epochs : Z)
           (fuel : nat) : outcome nat * list (EpochLog nat) :=
  fit_regression_net randperm Adam train_step (eval_loss script) fuel
    0%nat [tt; tt] [tt; tt] 2 1 f0_1 f0_5 stop_after_epochs max_epochs 0%nat.

(** The loaders and the initial world of [fit]. *)
Definition loaders : Loaders unit unit :=
  let ds := {| ds_theta := [tt; tt]; ds_label := [tt; tt] |} in
  {| train_loader := {| dataset := ds; batch_size := 1; indices := [0%nat] |};
     val_loader := {| dataset := ds; batch_size := 1; indices := [1%nat] |};
     num_validation_examples := 1 |}.

Definition world0 : World nat unit nat :=
  {| neural_net := 0%nat; optimizer := tt; generator := 1%nat |}.

(** A training step whose loss grows with the steps taken: the [k]-th
    step of a run reports the loss [k]. *)
Definition graded_step (ds : Dataset unit unit) (b : list nat)
           (w : World nat unit nat) : float * World nat unit nat :=
  (Z2F (Z.of_nat (S (neural_net w))),
   {| neural_net := S (neural_net w);
      optimizer := optimizer w;
      generator := generator w |}).

(** What an epoch of [fit] logs after [k] steps when the scripted loss
    is [v]. *)
Definition entry (k : nat) (v : float) : EpochLog nat :=
  {| total_train_loss := Z2F 1; validation_loss := v; checked_state := k |}.

(** Validation losses 5, 3, 3, 3, 3: one strict decrease, in epoch 2. *)
Definition decreases_once : list float := map Z2F [5; 3; 3; 3; 3].

(** Validation losses 5, 3, 4, 2, 3: the lowest in epoch 4. *)
Definition late_best : list float := map Z2F [5; 3; 4; 2; 3].

(** No scripted loss at all: every validation loss is NaN. *)
Definition all_nan : list float := [].

(** Six samples, and the loaders [data_loader] builds on them with
    [validation_fraction = 0.5] and [batch_size = 1] from generator
    state 0. *)
Definition six : list unit := repeat tt 6.

Definition loaders6 : Loaders unit unit :=
  let ds := {| ds_theta := six; ds_label := six |} in
  {| train_loader :=
       {| dataset := ds; batch_size := 1; indices := [0; 1; 2]%nat |};
     val_loader :=
       {| dataset := ds; batch_size := 1; indices := [3; 4; 5]%nat |};
     num_validation_examples := 3 |}.

(** The loaders [data_loader] builds on the six samples with
    [batch_size = 5]: fewer training indices than a batch holds. *)
Definition loaders6_wide : Loaders unit unit :=
  let ds := {| ds_theta := six; ds_label := six |} in
  {| train_loader :=
       {| dataset := ds; batch_size := 5; indices := [0; 1; 2]%nat |};
     val_loader :=
       {| dataset := ds; batch_size := 3; indices := [3; 4; 5]%nat |};
     num_validation_examples := 3 |}.

(** The loaders [data_loader] builds on two samples with
    [validation_fraction = 1.0]: every sample is a validation sample. *)
Definition all_validation : Loaders unit unit :=
  let ds := {| ds_theta := [tt; tt]; ds_label := [tt; tt] |} in
  {| train_loader := {| dataset := ds; batch_size := 1; indices := [] |};
     val_loader :=
       {| dataset := ds; batch_size := 1; indices := [0; 1]%nat |};
     num_validation_examples := 2 |}.

End Scripted.

(** * Properties *)

(** ** Floats and slices *)

Lemma flt_irrefl (x : float) : flt x x = false.
Proof.
  unfold flt, SFltb, SFcompare.
  destruct x as [s|s| |s m e]; try destruct s; try reflexivity;
    rewrite Z.compare_refl, Pos.compare_cont_refl; reflexivity.
Qed.

Lemma flt_trans (x y z : float) :
  flt x y = true -> flt y z = true -> flt x z = true.
Proof.
  unfold flt, SFltb, SFcompare.
  destruct x as [sx|sx| |sx mx ex], y as [sy|sy| |sy my ey],
    z as [sz|sz| |sz mz ez];
    try destruct sx; try destruct sy; try destruct sz;
    try discriminate; try reflexivity; cbn;
    change (Pos.compare_cont Eq) with Pos.compare;
    destruct (Z.compare_spec ex ey); destruct (Z.compare_spec ey ez);
    destruct (Z.compare_spec ex ez); try discriminate; try reflexivity;
    try lia; subst;
    destruct (Pos.compare_spec mx my); destruct (Pos.compare_spec my mz);
    destruct (Pos.compare_spec mx mz); cbn; try discriminate;
    try reflexivity; try lia.
Qed.

(** A loss that is not below [b] is not below anything below [b]. *)
Lemma flt_not_below (v b b' : float) :
  flt v b = false -> flt b' b = true -> flt v b' = false.
Proof.
  intros Hv Hb. destruct (flt v b') eqn:E; [|reflexivity].
  rewrite (flt_trans _ _ _ E Hb) in Hv. discriminate.
Qed.

Lemma slice_bound_le (len : nat) (k : Z) : (slice_bound len k <= len)%nat.
Proof. unfold slice_bound. destruct (k <? 0) eqn:E; lia. Qed.

Lemma slice_app {A} (xs : list A) (k : Z) :
  slice_to xs k ++ slice_from xs k = xs.
Proof. unfold slice_to, slice_from. apply firstn_skipn. Qed.

Lemma slice_to_length {A} (xs : list A) (k : Z) :
  length (slice_to xs k) = slice_bound (length xs) k.
Proof.
  unfold slice_to. rewrite length_firstn.
  pose proof (slice_bound_le (length xs) k). lia.
Qed.

Lemma slice_from_length {A} (xs : list A) (k : Z) :
  (length (slice_from xs k) = length xs - slice_bound (length xs) k)%nat.
Proof. unfold slice_from. apply length_skipn. Qed.

(** ** data_loader *)

Section Splitting.

Context {Row Target Gen : Type}.
Variable randperm : Gen -> nat -> list nat * Gen.

(** What torch documents of [randperm]: a permutation of [0, n). *)
Hypothesis randperm_perm :
  forall g n, Permutation (fst (randperm g n)) (seq 0 n).

Lemma split_indices_inv (n : nat) (vf : float) (g : Gen)
      (train val : list nat) (k : Z) (g' : Gen) :
  split_indices randperm n vf g = Ok (train, val, k, g') ->
  int_of_float (fmul (fsub (Z2F 1) vf) (Z2F (Z.of_nat n))) = Ok k /\
  train = slice_to (fst (randperm g n)) k /\
  val = slice_from (fst (randperm g n)) k /\
  g' = snd (randperm g n).
Proof.
  unfold split_indices, float_of_int.
  destruct (randperm g n) as [p g1]; cbn [fst snd].
  destruct (Z2F (Z.of_nat n)) eqn:Ex; cbn [bind]; try discriminate;
    destruct (int_of_float _) eqn:Ek; cbn [bind]; try discriminate;
    intros H; inversion H; subst; auto.
Qed.

Lemma data_loader_inv (theta : list Row) (stats : list Target)
      (num_train bs : Z) (vf : float) (g : Gen)
      (ld : Loaders Row Target) (g' : Gen) :
  data_loader randperm theta stats num_train bs vf g = Ok (ld, g') ->
  exists k,
    split_indices randperm (length (slice_to theta num_train)) vf g
    = Ok (indices (train_loader ld), indices (val_loader ld), k, g') /\
    num_validation_examples ld
    = Z.of_nat (length (slice_to theta num_train)) - k /\
    batch_size (train_loader ld) = bs /\
    batch_size (val_loader ld) = Z.min bs (num_validation_examples ld) /\
    0 < bs /\ 0 < num_validation_examples ld.
Proof.
  unfold data_loader.
  destruct (split_indices _ _ _ _) as [[[[tr va] k] g1]|] eqn:Es;
    cbn [bind]; [|discriminate].
  unfold TensorDataset.
  destruct (_ =? _)%nat; cbn [bind]; [|discriminate].
  unfold new_DataLoader.
  destruct (bs <=? 0) eqn:Eb; cbn [bind]; [discriminate|].
  destruct (Z.min bs _ <=? 0) eqn:Em; cbn [bind]; [discriminate|].
  intros H; inversion H; subst; clear H. cbn.
  exists k. repeat split; try reflexivity; lia.
Qed.

(** The two slices of a permutation of [0, n) partition [0, n). *)
Lemma slices_partition (p : list nat) (n : nat) (k : Z) :
  Permutation p (seq 0 n) ->
  slice_to p k ++ slice_from p k = p /\
  NoDup (slice_to p k ++ slice_from p k) /\
  (forall i, In i (slice_to p k) -> ~ In i (slice_from p k)) /\
  (forall i, (i < n)%nat <-> In i (slice_to p k) \/ In i (slice_from p k)).
Proof.
  intros Hp.
  assert (Hnd : NoDup (slice_to p k ++ slice_from p k)).
  { rewrite slice_app. apply (Permutation_NoDup (Permutation_sym Hp)).
    apply seq_NoDup. }
  split; [apply slice_app|]. split; [exact Hnd|]. split.
  - intros i Hi Hv. apply NoDup_app_remove_l in Hnd as Hv'.
    revert Hnd Hi Hv. generalize (slice_to p k) (slice_from p k).
    intros l1; induction l1 as [|a l1 IH]; intros l2 Hnd Hi Hv; [easy|].
    cbn in Hnd. inversion Hnd as [|? ? Hna Hnd']; subst.
    destruct Hi as [->|Hi].
    + apply Hna. apply in_or_app. now right.
    + now apply (IH l2).
  - intros i. rewrite <- in_app_iff, slice_app. split.
    + intros Hi. apply (Permutation_in _ (Permutation_sym Hp)).
      apply in_seq. lia.
    + intros Hi. apply (Permutation_in _ Hp) in Hi.
      apply in_seq in Hi. lia.
Qed.

(** C3. Whenever [data_loader] reaches its split (lines 160-168), the
    training indices followed by the validation indices are the random
    permutation itself: the two sets are disjoint, no index occurs twice,
    and together they are exactly the indices [0, num_examples) of the
    truncated dataset; the loaders a completed call returns sample from
    these two sets. *)
Theorem split_partitions_the_indices
        (theta : list Row) (stats : list Target) (num_train bs : Z)
        (vf : float) (g : Gen)
        (train val : list nat) (k : Z) (g1 : Gen) :
  split_indices randperm (length (slice_to theta num_train)) vf g
  = Ok (train, val, k, g1) ->
  let num_examples := length (slice_to theta num_train) in
  train ++ val = fst (randperm g num_examples) /\
  Permutation (train ++ val) (seq 0 num_examples) /\
  NoDup (train ++ val) /\
  (forall i, In i train -> ~ In i val) /\
  (forall i, (i < num_examples)%nat <-> In i train \/ In i val) /\
  (forall ld g',
      data_loader randperm theta stats num_train bs vf g = Ok (ld, g') ->
      indices (train_loader ld) = train /\ indices (val_loader ld) = val).
Proof.
  intros Hs num_examples.
  destruct (split_indices_inv _ _ _ _ _ _ _ Hs) as (_ & -> & -> & _).
  pose proof (randperm_perm g num_examples) as Hp.
  destruct (slices_partition _ _ k Hp) as (Happ & Hnd & Hdis & Hcov).
  fold num_examples.
  repeat split; auto; try (now apply Hcov).
  - rewrite Happ. exact Hp.
  - apply data_loader_inv in H as (k' & Hs' & _).
    fold num_examples in Hs', Hs. rewrite Hs in Hs'. now inversion Hs'.
  - apply data_loader_inv in H as (k' & Hs' & _).
    fold num_examples in Hs', Hs. rewrite Hs in Hs'. now inversion Hs'.
Qed.

(** The split depends on the generator state, the number of retained
    samples and the validation fraction alone. *)
Lemma split_depends_on_seed_and_size
      (theta theta' : list Row) (stats stats' : list Target)
      (num_train num_train' bs bs' : Z) (vf : float) (g : Gen)
      (ld ld' : Loaders Row Target) (g1 g1' : Gen) :
  length (slice_to theta num_train) = length (slice_to theta' num_train') ->
  data_loader randperm theta stats num_train bs vf g = Ok (ld, g1) ->
  data_loader randperm theta' stats' num_train' bs' vf g = Ok (ld', g1') ->
  indices (train_loader ld) = indices (train_loader ld') /\
  indices (val_loader ld) = indices (val_loader ld') /\
  num_validation_examples ld = num_validation_examples ld' /\
  g1 = g1'.
Proof.
  intros Hlen H H'.
  apply data_loader_inv in H as (k & Hs & Hn & _).
  apply data_loader_inv in H' as (k' & Hs' & Hn' & _).
  rewrite <- Hlen in Hs', Hn'. rewrite Hs in Hs'.
  inversion Hs'; subst. repeat split; congruence.
Qed.

(** C8. Two calls of [data_loader] on identical inputs, started from the
    same state of the random generator (a fixed seed), give the same
    result: the same training and validation indices, the same count of
    validation examples and the same generator state afterwards. *)
Theorem data_loader_deterministic
        (theta theta' : list Row) (stats stats' : list Target)
        (num_train num_train' bs bs' : Z) (vf vf' : float) (g g' : Gen) :
  theta = theta' -> stats = stats' -> num_train = num_train' ->
  bs = bs' -> vf = vf' -> g = g' ->
  data_loader randperm theta stats num_train bs vf g
  = data_loader randperm theta' stats' num_train' bs' vf' g' /\
  (forall ld ld' g1 g1',
      data_loader randperm theta stats num_train bs vf g = Ok (ld, g1) ->
      data_loader randperm theta' stats' num_train' bs' vf' g' = Ok (ld', g1') ->
      indices (train_loader ld) = indices (train_loader ld') /\
      indices (val_loader ld) = indices (val_loader ld')).
Proof.
  intros -> -> -> -> -> ->. split; [reflexivity|].
  intros ld ld' g1 g1' H H'.
  destruct (split_depends_on_seed_and_size _ _ _ _ _ _ _ _ _ _ _ _ _ _
              eq_refl H H') as (Ht & Hv & _).
  now split.
Qed.

End Splitting.

(** ** The batch sampler and the loaders *)

Lemma batch_sampler_spec (bs : nat) (idxs batch : list nat) :
  (length batch < bs)%nat ->
  let q := ((length batch + length idxs) / bs)%nat in
  length (batch_sampler bs batch idxs) = q /\
  Forall (fun b => length b = bs) (batch_sampler bs batch idxs) /\
  concat (batch_sampler bs batch idxs) = firstn (bs * q) (batch ++ idxs).
Proof.
  revert batch. induction idxs as [|idx rest IH]; intros batch Hlt q.
  - subst q. cbn [batch_sampler length]. rewrite Nat.add_0_r.
    rewrite (Nat.div_small _ _ Hlt), Nat.mul_0_r. now repeat split.
  - cbn [batch_sampler].
    assert (Hl : length (batch ++ [idx]) = S (length batch))
      by (rewrite length_app; cbn; lia).
    assert (Happ : batch ++ idx :: rest = (batch ++ [idx]) ++ rest)
      by (now rewrite <- app_assoc).
    destruct (Nat.eqb_spec (length (batch ++ [idx])) bs) as [E|E].
    + destruct (IH [] ltac:(cbn; lia)) as (IH1 & IH2 & IH3).
      cbn [length app] in IH1, IH2, IH3. rewrite Nat.add_0_l in *.
      assert (Hq : q = S (length rest / bs)).
      { subst q. cbn [length].
        replace (length batch + S (length rest))%nat
          with (1 * bs + length rest)%nat by lia.
        rewrite Nat.div_add_l by lia. reflexivity. }
      rewrite Hq. repeat split.
      * cbn [length]. now rewrite IH1.
      * constructor; assumption.
      * cbn [concat]. rewrite IH3, Happ.
        replace (bs * S (length rest / bs))%nat
          with (length (batch ++ [idx]) + bs * (length rest / bs))%nat
          by (rewrite E; lia).
        now rewrite firstn_app_2.
    + destruct (IH (batch ++ [idx]) ltac:(lia)) as (IH1 & IH2 & IH3).
      assert (Hq : q = ((length (batch ++ [idx]) + length rest) / bs)%nat).
      { subst q. cbn [length]. f_equal. lia. }
      rewrite Hq, Happ. now repeat split.
Qed.

Lemma map_nth_seq_id (l : list nat) :
  map (fun i => nth i l 0%nat) (seq 0 (length l)) = l.
Proof.
  induction l as [|a l IH]; [reflexivity|].
  cbn [length seq map nth]. f_equal.
  rewrite <- seq_shift, map_map. cbn [nth]. exact IH.
Qed.

Section Loaders.

Context {Row Target Gen : Type}.
Variable randperm : Gen -> nat -> list nat * Gen.
Hypothesis randperm_perm :
  forall g n, Permutation (fst (randperm g n)) (seq 0 n).

(** One pass over a [SubsetRandomSampler] visits its indices in a freshly
    drawn order. *)
Lemma subset_random_sampler_perm (idxs : list nat) (g : Gen) :
  Permutation (fst (subset_random_sampler randperm idxs g)) idxs.
Proof.
  unfold subset_random_sampler.
  pose proof (randperm_perm g (length idxs)) as Hp.
  destruct (randperm g (length idxs)) as [p g1]. cbn [fst] in *.
  eapply Permutation_trans; [apply Permutation_map, Hp|].
  rewrite map_nth_seq_id. apply Permutation_refl.
Qed.

Lemma iterate_fst (ld : DataLoader Row Target) (g : Gen) :
  fst (iterate randperm ld g)
  = batch_sampler (Z.to_nat (batch_size ld)) []
      (fst (subset_random_sampler randperm (indices ld) g)).
Proof.
  unfold iterate. now destruct (subset_random_sampler _ _ _).
Qed.

(** With [drop_last=True] a loader yields floor(len / batch_size) batches. *)
Lemma iterate_length (ld : DataLoader Row Target) (g : Gen) :
  0 < batch_size ld ->
  length (fst (iterate randperm ld g))
  = (length (indices ld) / Z.to_nat (batch_size ld))%nat.
Proof.
  intros Hb. rewrite iterate_fst.
  destruct (batch_sampler_spec (Z.to_nat (batch_size ld))
              (fst (subset_random_sampler randperm (indices ld) g)) [])
    as (H & _); [cbn; lia|].
  rewrite H. cbn [length]. rewrite Nat.add_0_l.
  now rewrite (Permutation_length (subset_random_sampler_perm _ g)).
Qed.

(** C4. On 100 samples with [num_train = 100],
    [validation_fraction = 0.1] and [batch_size = 10], [data_loader]
    returns 90 training and 10 validation indices, every pass over the
    training loader yields 9 batches and every pass over the validation
    loader yields 1 batch. *)
Theorem scenario_100_samples
        (theta : list Row) (stats : list Target) (g : Gen) :
  length theta = 100%nat -> length stats = 100%nat ->
  exists ld g',
    data_loader randperm theta stats 100 10 f0_1 g = Ok (ld, g') /\
    length (indices (train_loader ld)) = 90%nat /\
    length (indices (val_loader ld)) = 10%nat /\
    num_validation_examples ld = 10 /\
    forall g1,
      length (fst (iterate randperm (train_loader ld) g1)) = 9%nat /\
      length (fst (iterate randperm (val_loader ld) g1)) = 1%nat.
Proof.
  intros Ht Hs.
  assert (Hst : length (slice_to theta 100) = 100%nat)
    by (rewrite slice_to_length, Ht; reflexivity).
  assert (Hss : length (slice_to stats 100) = 100%nat)
    by (rewrite slice_to_length, Hs; reflexivity).
  pose proof (Permutation_length (randperm_perm g 100)) as Hp.
  rewrite length_seq in Hp.
  unfold data_loader, split_indices. rewrite Hst.
  destruct (randperm g 100) as [p g1]. cbn [fst] in Hp.
  replace (float_of_int (Z.of_nat 100)) with (Ok (Z2F 100))
    by (vm_compute; reflexivity).
  cbn [bind].
  replace (int_of_float (fmul (fsub (Z2F 1) f0_1) (Z2F 100)))
    with (Ok 90 : result Z) by (vm_compute; reflexivity).
  cbn [bind]. unfold TensorDataset. rewrite Hst, Hss. cbn [Nat.eqb bind].
  replace (100 =? 100)%nat with true by reflexivity. cbn [bind].
  unfold new_DataLoader.
  replace (10 <=? 0) with false by reflexivity.
  replace (Z.min 10 (Z.of_nat 100 - 90) <=? 0) with false by reflexivity.
  cbn [bind]. eexists. eexists. split; [reflexivity|].
  cbn [train_loader val_loader indices num_validation_examples].
  rewrite slice_to_length, slice_from_length, Hp.
  repeat split; try reflexivity.
  - rewrite iterate_length by (cbn; lia). cbn [indices batch_size].
    rewrite slice_to_length, Hp. reflexivity.
  - rewrite iterate_length by (cbn; lia). cbn [indices batch_size].
    rewrite slice_from_length, Hp. reflexivity.
Qed.

(** C9, as the code has it. The validation loader has batch size
    [min(batch_size, num_validation_examples)]; every pass over it draws a
    fresh random order of the validation indices (its sampler is a
    [SubsetRandomSampler], as for training), cuts that order into
    consecutive batches of exactly that size, and drops what remains. *)
Theorem validation_iterator_batches
        (theta : list Row) (stats : list Target) (num_train bs : Z)
        (vf : float) (g : Gen) (ld : Loaders Row Target) (g' : Gen) :
  data_loader randperm theta stats num_train bs vf g = Ok (ld, g') ->
  let m := Z.to_nat (Z.min bs (num_validation_examples ld)) in
  batch_size (val_loader ld) = Z.min bs (num_validation_examples ld) /\
  forall g1,
    let order :=
      fst (subset_random_sampler randperm (indices (val_loader ld)) g1) in
    let batches := fst (iterate randperm (val_loader ld) g1) in
    Permutation order (indices (val_loader ld)) /\
    Forall (fun b => length b = m) batches /\
    length batches = (length (indices (val_loader ld)) / m)%nat /\
    concat batches = firstn (m * (length order / m)) order.
Proof.
  intros H m.
  apply data_loader_inv in H as (k & _ & _ & _ & Hb & Hbs & Hn).
  split; [exact Hb|]. intros g1 order batches.
  assert (Hperm : Permutation order (indices (val_loader ld)))
    by apply subset_random_sampler_perm.
  subst batches. rewrite iterate_fst. fold order. rewrite Hb. fold m.
  destruct (batch_sampler_spec m order []) as (H1 & H2 & H3);
    [subst m; cbn; lia|].
  cbn [length app] in H1, H3. rewrite Nat.add_0_l in H1, H3.
  repeat split; auto.
  now rewrite H1, (Permutation_length Hperm).
Qed.

End Loaders.

(** ** The training loop *)

Lemma true_divide_zero (acc : num) : true_divide acc 0 = Raise ZeroDivisionError.
Proof. reflexivity. Qed.

Lemma true_divide_raises (acc : num) (d : Z) (e : exn) :
  true_divide acc d = Raise e -> e = ZeroDivisionError \/ e = OverflowError.
Proof.
  unfold true_divide, float_of_int.
  destruct (d =? 0); [intros H; inversion H; auto|].
  destruct acc as [a|f].
  - destruct (fdiv _ _); intros H; inversion H; auto.
  - destruct (Z2F d); cbn; intros H; inversion H; auto.
Qed.

Lemma true_divide_ok (acc : num) (d : Z) :
  divisor_ok d = true -> acc = Int 0 \/ (exists f, acc = Float f) ->
  exists q, true_divide acc d = Ok q.
Proof.
  unfold divisor_ok, true_divide, float_of_int. intros Hd Hacc.
  apply andb_true_iff in Hd as [Hz Hf]. apply negb_true_iff in Hz.
  rewrite Hz. destruct Hacc as [->|[f ->]].
  - destruct d; [discriminate| |]; cbn; eauto.
  - destruct (Z2F d); try discriminate; cbn; eauto.
Qed.

Lemma py_sum_shape (xs : list float) (acc : num) :
  acc = Int 0 \/ (exists f, acc = Float f) ->
  fold_left num_add xs acc = Int 0 \/ exists f, fold_left num_add xs acc = Float f.
Proof.
  revert acc. induction xs as [|x xs IH]; intros acc H; [exact H|].
  cbn [fold_left]. apply IH. right. destruct acc; cbn; eauto.
Qed.

Lemma fold_left_num_add_map {B} (h : B -> float) (bs : list B) (acc : num) :
  fold_left (fun a b => num_add a (h b)) bs acc
  = fold_left num_add (map h bs) acc.
Proof.
  revert acc. induction bs as [|b bs IH]; intros acc; [reflexivity|].
  cbn [fold_left map]. apply IH.
Qed.

Lemma fold_left_num_add_float (xs : list float) (f : float) :
  fold_left num_add xs (Float f) = Float (fold_left fadd xs f).
Proof.
  revert f. induction xs as [|x xs IH]; intros f; [reflexivity|].
  cbn [fold_left num_add]. apply IH.
Qed.

Section Training.

Context {Row Target StateDict Opt Gen : Type}.
Variable randperm : Gen -> nat -> list nat * Gen.
Variable train_step :
  Dataset Row Target -> list nat -> World StateDict Opt Gen ->
  float * World StateDict Opt Gen.
Variable eval_loss : Dataset Row Target -> list nat -> StateDict -> float.
Variable loaders : Loaders Row Target.
Variables num_train stop_after_epochs max_epochs : Z.

Local Abbreviation training_pass' :=
  (training_pass randperm train_step loaders num_train).
Local Abbreviation validation_pass' :=
  (validation_pass randperm eval_loss loaders).
Local Abbreviation epoch' :=
  (epoch randperm train_step eval_loss loaders num_train).
Local Abbreviation termination_check' :=
  (termination_check stop_after_epochs max_epochs).
Local Abbreviation stops' := (stops stop_after_epochs max_epochs).
Local Abbreviation loop :=
  (while_not_converged randperm train_step eval_loss loaders num_train
     stop_after_epochs max_epochs).
Local Abbreviation forecast' :=
  (forecast randperm train_step eval_loss loaders num_train).
Local Abbreviation LoopState' := (LoopState StateDict Opt Gen).
Local Abbreviation World' := (World StateDict Opt Gen).

(** *** One training pass *)

Lemma train_batches_spec (batches : list (list nat)) (w : World') (acc : num) :
  fst (fold_left
         (fun (a : num * World') (b : list nat) =>
            let (loss, w') :=
              train_step (dataset (train_loader loaders)) b (snd a) in
            (num_add (fst a) loss, w'))
         batches (acc, w))
  = fold_left num_add (batch_losses train_step loaders batches w) acc.
Proof.
  revert w acc. induction batches as [|b rest IH]; intros w acc;
    [reflexivity|].
  cbn [fold_left batch_losses snd fst].
  destruct (train_step _ b w) as [loss w1]. cbn [fold_left]. apply IH.
Qed.

Lemma training_pass_value (w w' : World') (loss : float) :
  training_pass' w = Ok (loss, w') ->
  let it := iterate randperm (train_loader loaders) (generator w) in
  let w0 := {| neural_net := neural_net w; optimizer := optimizer w;
               generator := snd it |} in
  w' = snd (train_batches train_step loaders (fst it) w0) /\
  match batch_losses train_step loaders (fst it) w0 with
  | [] =>
      loss = S754_zero (num_train - num_validation_examples loaders <? 0)
  | x :: xs =>
      loss = fdiv (fold_left fadd xs (fadd (Z2F 0) x))
               (Z2F (num_train - num_validation_examples loaders))
  end.
Proof.
  intros H. cbv zeta. unfold training_pass in H.
  destruct (iterate randperm (train_loader loaders) (generator w))
    as [batches g]. cbn [fst snd].
  pose proof (train_batches_spec batches
                {| neural_net := neural_net w; optimizer := optimizer w;
                   generator := g |} (Int 0)) as Hs.
  fold (train_batches train_step loaders batches
          {| neural_net := neural_net w; optimizer := optimizer w;
             generator := g |}) in Hs.
  destruct (train_batches train_step loaders batches _) as [total w1].
  cbn [fst snd] in *. subst total.
  unfold true_divide, float_of_int in H.
  destruct (batch_losses train_step loaders batches _) as [|x xs].
  - cbn [fold_left] in H.
    destruct (num_train - num_validation_examples loaders) as [|d|d];
      cbn in H; inversion H; now split.
  - cbn [fold_left num_add] in H. rewrite fold_left_num_add_float in H.
    destruct (num_train - num_validation_examples loaders =? 0);
      [discriminate|].
    destruct (Z2F (num_train - num_validation_examples loaders));
      cbn in H; inversion H; now split.
Qed.

Lemma validation_pass_net (w w' : World') (loss : float) :
  validation_pass' w = Ok (loss, w') -> neural_net w' = neural_net w.
Proof.
  unfold validation_pass. destruct (iterate _ _ _) as [batches g].
  destruct (true_divide _ _); cbn [bind]; intros H; now inversion H.
Qed.

Lemma training_pass_ok (w : World') :
  divisor_ok (num_train - num_validation_examples loaders) = true ->
  exists loss w', training_pass' w = Ok (loss, w').
Proof.
  intros Hd. unfold training_pass, train_batches.
  destruct (iterate _ _ _) as [batches g].
  pose proof (train_batches_spec batches
                {| neural_net := neural_net w; optimizer := optimizer w;
                   generator := g |} (Int 0)) as Hs.
  destruct (fold_left _ batches _) as [total w1]. cbn [fst] in Hs.
  destruct (true_divide_ok total _ Hd) as [q Hq].
  { rewrite Hs. apply py_sum_shape. now left. }
  rewrite Hq. cbn. eauto.
Qed.

Lemma validation_pass_ok (w : World') :
  divisor_ok (num_validation_examples loaders) = true ->
  exists loss w', validation_pass' w = Ok (loss, w').
Proof.
  intros Hd. unfold validation_pass.
  destruct (iterate _ _ _) as [batches g].
  match goal with
  | |- context [true_divide ?t _] =>
      destruct (true_divide_ok t _ Hd) as [q Hq]
  end.
  { rewrite fold_left_num_add_map. apply py_sum_shape. now left. }
  rewrite Hq. cbn. eauto.
Qed.

(** *** The checks of one iteration *)

Lemma improvement_check_spec (st : LoopState') (w : World') (v : float) (e : Z) :
  let st1 := improvement_check st w v e in
  world st1 = w /\ epochs st1 = e /\ converged st1 = converged st /\
  (flt v (best_validation_log_prob st) = true ->
   best_validation_log_prob st1 = v /\
   best_model_state_dict st1 = Some (neural_net w) /\
   epochs_since_last_improvement st1 = 0) /\
  (flt v (best_validation_log_prob st) = false ->
   best_validation_log_prob st1 = best_validation_log_prob st /\
   best_model_state_dict st1 = best_model_state_dict st /\
   epochs_since_last_improvement st1 = epochs_since_last_improvement st + 1).
Proof.
  unfold improvement_check.
  destruct (flt v (best_validation_log_prob st)); cbn;
    repeat split; intros; try discriminate; reflexivity.
Qed.

Lemma epoch_inv (st st1 : LoopState') (l : EpochLog StateDict) :
  epoch' st = Ok (st1, l) ->
  st1 = improvement_check st (world st1) (validation_loss l) (epochs st + 1) /\
  neural_net (world st1) = checked_state l.
Proof.
  unfold epoch.
  destruct (training_pass' (world st)) as [[tl w1]|]; cbn [bind];
    [|discriminate].
  destruct (validation_pass' w1) as [[vl w2]|]; cbn [bind]; [|discriminate].
  intros H; inversion H; subst; clear H. cbn [validation_loss checked_state].
  destruct (improvement_check_spec st w2 vl (epochs st + 1)) as (Hw & _).
  rewrite Hw. now split.
Qed.

Lemma epoch_raises (st : LoopState') (e : exn) :
  epoch' st = Raise e -> e = ZeroDivisionError \/ e = OverflowError.
Proof.
  unfold epoch, training_pass, validation_pass.
  destruct (iterate randperm (train_loader loaders) _) as [b1 g1].
  destruct (train_batches _ _ _ _) as [total w1].
  destruct (true_divide total _) eqn:E1; cbn [bind].
  - destruct (iterate randperm (val_loader loaders) _) as [b2 g2].
    destruct (true_divide _ (num_validation_examples loaders)) eqn:E2;
      cbn [bind]; [discriminate|].
    intros H; inversion H; subst. eapply true_divide_raises, E2.
  - intros H; inversion H; subst. eapply true_divide_raises, E1.
Qed.

Lemma epoch_ok (st : LoopState') :
  divisor_ok (num_train - num_validation_examples loaders) = true ->
  divisor_ok (num_validation_examples loaders) = true ->
  exists st1 l, epoch' st = Ok (st1, l).
Proof.
  intros H1 H2. unfold epoch.
  destruct (training_pass_ok (world st) H1) as (tl & w1 & ->). cbn [bind].
  destruct (validation_pass_ok w1 H2) as (vl & w2 & ->). cbn [bind].
  eauto.
Qed.

Lemma termination_check_quiet (st : LoopState') :
  stops' st = false -> termination_check' st = Ok st.
Proof.
  unfold stops, termination_check. intros H.
  apply orb_false_iff in H as [-> H2]. cbn [bind]. now rewrite H2.
Qed.

Lemma termination_check_none (st : LoopState') :
  stops' st = true -> best_model_state_dict st = None ->
  termination_check' st = Raise InvalidStateDict.
Proof.
  unfold stops, termination_check, load_and_converge. intros H Hb.
  rewrite Hb. destruct (epochs st >? max_epochs); cbn [bind]; [reflexivity|].
  cbn in H. now rewrite H, Hb.
Qed.

Lemma termination_check_some (st : LoopState') (sd : StateDict) :
  stops' st = true -> best_model_state_dict st = Some sd ->
  exists st',
    termination_check' st = Ok st' /\ converged st' = true /\
    neural_net (world st') = sd /\
    best_model_state_dict st' = Some sd /\
    best_validation_log_prob st' = best_validation_log_prob st.
Proof.
  unfold stops, termination_check, load_and_converge. intros H Hb.
  rewrite Hb.
  destruct (epochs st >? max_epochs); cbn [bind];
    [|cbn in H; rewrite H, Hb];
    cbn [epochs_since_last_improvement best_model_state_dict];
    try destruct (_ >? _); eexists; split; try reflexivity; cbn; auto.
Qed.

Lemma loop_converged (fuel : nat) (st : LoopState') :
  converged st = true -> loop fuel st = (Returned (neural_net (world st)), []).
Proof. intros H. destruct fuel; cbn; now rewrite H. Qed.

Lemma loop_step (fuel : nat) (st : LoopState') :
  converged st = false ->
  loop (S fuel) st
  = match epoch' st with
    | Raise e => (Raised e, [])
    | Ok (st1, l) =>
        match termination_check' st1 with
        | Raise e => (Raised e, [l])
        | Ok st2 => let (o, ls) := loop fuel st2 in (o, l :: ls)
        end
    end.
Proof. intros H. cbn [while_not_converged]. now rewrite H. Qed.

(** *** The best snapshot *)

Lemma never_below_app (b : float) (xs ys : list (EpochLog StateDict)) :
  never_below b (xs ++ ys) = never_below b xs && never_below b ys.
Proof. apply forallb_app. Qed.

Lemma never_below_weaken (b b' : float) (past : list (EpochLog StateDict)) :
  never_below b past = true -> flt b' b = true -> never_below b' past = true.
Proof.
  unfold never_below. intros H Hb. rewrite forallb_forall in *.
  intros l Hl. specialize (H l Hl). apply negb_true_iff in H.
  apply negb_true_iff. eapply flt_not_below; eassumption.
Qed.

Lemma best_so_far_ext (past : list (EpochLog StateDict)) (st st' : LoopState') :
  best_model_state_dict st' = best_model_state_dict st ->
  best_validation_log_prob st' = best_validation_log_prob st ->
  best_so_far past st -> best_so_far past st'.
Proof. unfold best_so_far. now intros -> ->. Qed.

Lemma best_so_far_step (past : list (EpochLog StateDict))
      (st st1 : LoopState') (l : EpochLog StateDict) :
  best_so_far past st -> epoch' st = Ok (st1, l) ->
  best_so_far (past ++ [l]) st1.
Proof.
  intros Hinv He. apply epoch_inv in He as [Hst1 Hnet].
  destruct (improvement_check_spec st (world st1) (validation_loss l)
              (epochs st + 1)) as (_ & _ & _ & Hyes & Hno).
  rewrite <- Hst1 in Hyes, Hno. unfold best_so_far in *.
  destruct (flt (validation_loss l) (best_validation_log_prob st)) eqn:E.
  - destruct (Hyes eq_refl) as (Hb & Hsd & _). rewrite Hsd, Hnet.
    exists l. rewrite in_app_iff, never_below_app. cbn.
    rewrite flt_irrefl. cbn.
    assert (flt (validation_loss l) f1e10 = true /\
            never_below (best_validation_log_prob st) past = true) as [H1 H2].
    { destruct (best_model_state_dict st).
      - destruct Hinv as (l0 & _ & _ & Hb0 & Hlt & Hnb). rewrite Hb0 in *.
        split; [eapply flt_trans; eassumption|exact Hnb].
      - destruct Hinv as [Hb0 Hnb]. rewrite Hb0 in *. now split. }
    repeat split; auto.
    rewrite (never_below_weaken _ _ _ H2 E). reflexivity.
  - destruct (Hno eq_refl) as (Hb & Hsd & _). rewrite Hsd, Hb.
    destruct (best_model_state_dict st).
    + destruct Hinv as (l0 & Hin & Hs & Hb0 & Hlt & Hnb).
      exists l0. rewrite in_app_iff, never_below_app. cbn.
      rewrite <- Hb0, E, Hb0, Hnb. repeat split; auto.
    + destruct Hinv as [Hb0 Hnb]. split; [exact Hb0|].
      rewrite never_below_app. cbn. rewrite <- Hb0, E, Hb0, Hnb. reflexivity.
Qed.

Lemma loop_returns_best (fuel : nat) :
  forall (st : LoopState') (past ls : list (EpochLog StateDict))
         (net : StateDict),
    best_so_far past st ->
    (converged st = true ->
     best_model_state_dict st = Some (neural_net (world st))) ->
    loop fuel st = (Returned net, ls) ->
    exists l, In l (past ++ ls) /\ net = checked_state l /\
              flt (validation_loss l) f1e10 = true /\
              never_below (validation_loss l) (past ++ ls) = true.
Proof.
  induction fuel as [|fuel IH]; intros st past ls net Hinv Hconv Hrun;
    destruct (converged st) eqn:Ec.
  1, 3: rewrite (loop_converged _ _ Ec) in Hrun; inversion Hrun; subst;
    unfold best_so_far in Hinv; rewrite (Hconv eq_refl) in Hinv;
    rewrite app_nil_r; destruct Hinv as (l & H1 & H2 & _ & H3 & H4);
    exists l; auto.
  - cbn in Hrun. rewrite Ec in Hrun. discriminate.
  - rewrite (loop_step _ _ Ec) in Hrun.
    destruct (epoch' st) as [[st1 l]|] eqn:He; [|discriminate].
    pose proof (best_so_far_step _ _ _ _ Hinv He) as Hinv1.
    assert (Ec1 : converged st1 = false).
    { apply epoch_inv in He as [-> _].
      destruct (improvement_check_spec st (world st1) (validation_loss l)
                  (epochs st + 1)) as (_ & _ & -> & _). exact Ec. }
    destruct (termination_check' st1) as [st2|] eqn:Ht; [|discriminate].
    destruct (loop fuel st2) as [o ls'] eqn:Hl.
    inversion Hrun; subst; clear Hrun.
    replace (past ++ l :: ls') with ((past ++ [l]) ++ ls')
      by now rewrite <- app_assoc.
    destruct (stops' st1) eqn:Es.
    + destruct (best_model_state_dict st1) as [sd|] eqn:Eb.
      * destruct (termination_check_some _ _ Es Eb)
          as (st2' & Ht' & Hc & Hn & Hb & Hv).
        rewrite Ht in Ht'. inversion Ht'; subst st2'.
        apply (IH st2); auto.
        -- eapply best_so_far_ext; [| |exact Hinv1]; congruence.
        -- intros _. congruence.
      * rewrite (termination_check_none _ Es Eb) in Ht. discriminate.
    + rewrite (termination_check_quiet _ Es) in Ht. inversion Ht; subst st2.
      apply (IH st1); auto. intros Hc. congruence.
Qed.

(** *** The epoch budget *)

Lemma loop_within_budget (fuel : nat) :
  forall st : LoopState',
    converged st = false ->
    Z.of_nat (length (snd (loop fuel st)))
    <= Z.max 1 (max_epochs + 1 - epochs st) /\
    (Z.max 1 (max_epochs + 1 - epochs st) <= Z.of_nat fuel ->
     fst (loop fuel st) <> OutOfFuel).
Proof.
  induction fuel as [|fuel IH]; intros st Ec.
  - cbn. rewrite Ec. cbn. lia.
  - rewrite (loop_step _ _ Ec).
    destruct (epoch' st) as [[st1 l]|] eqn:He;
      [|cbn; split; [lia|discriminate]].
    apply epoch_inv in He as [Hst1 _].
    destruct (improvement_check_spec st (world st1) (validation_loss l)
                (epochs st + 1)) as (_ & He1 & Hc1 & _).
    rewrite <- Hst1 in He1, Hc1. rewrite Ec in Hc1.
    destruct (stops' st1) eqn:Es.
    + destruct (best_model_state_dict st1) as [sd|] eqn:Eb.
      * destruct (termination_check_some _ _ Es Eb) as (st2 & -> & Hc & _).
        rewrite (loop_converged _ _ Hc). cbn. split; [lia|discriminate].
      * rewrite (termination_check_none _ Es Eb). cbn.
        split; [lia|discriminate].
    + rewrite (termination_check_quiet _ Es).
      destruct (IH st1 Hc1) as [IH1 IH2].
      unfold stops in Es. apply orb_false_iff in Es as [Es _].
      destruct (loop fuel st1) as [o ls]. cbn [fst snd length] in *.
      rewrite He1 in *. split; [lia|]. intros Hf. apply IH2. lia.
Qed.

(** *** Training without any improvement *)

Lemma loop_without_improvement (fuel : nat) :
  forall st : LoopState',
    converged st = false ->
    best_model_state_dict st = None ->
    best_validation_log_prob st = f1e10 ->
    never_below f1e10 (snd (loop fuel st)) = true ->
    fst (loop fuel st) = OutOfFuel \/
    exists e,
      fst (loop fuel st) = Raised e /\
      (divisor_ok (num_train - num_validation_examples loaders) = true ->
       divisor_ok (num_validation_examples loaders) = true ->
       e = InvalidStateDict).
Proof.
  induction fuel as [|fuel IH]; intros st Ec Eb Ev Hnb.
  - cbn. rewrite Ec. now left.
  - rewrite (loop_step _ _ Ec) in *.
    destruct (epoch' st) as [[st1 l]|e] eqn:He.
    2:{ right. exists e. split; [reflexivity|]. intros Hd1 Hd2.
        destruct (epoch_ok st Hd1 Hd2) as (st1 & l & He').
        rewrite He in He'. discriminate. }
    apply epoch_inv in He as [Hst1 _].
    destruct (improvement_check_spec st (world st1) (validation_loss l)
                (epochs st + 1)) as (_ & _ & Hc1 & Hyes & Hno).
    rewrite <- Hst1 in Hc1, Hyes, Hno. rewrite Ec in Hc1. rewrite Ev in *.
    destruct (flt (validation_loss l) f1e10) eqn:E.
    + exfalso. destruct (Hyes eq_refl) as (_ & Hsd & _).
      destruct (stops' st1) eqn:Es.
      * destruct (termination_check_some _ _ Es Hsd) as (st2 & Ht & _).
        rewrite Ht in Hnb. destruct (loop fuel st2) as [o ls].
        cbn in Hnb. rewrite E in Hnb. discriminate.
      * rewrite (termination_check_quiet _ Es) in Hnb.
        destruct (loop fuel st1) as [o ls].
        cbn in Hnb. rewrite E in Hnb. discriminate.
    + destruct (Hno eq_refl) as (Hb & Hsd & _). rewrite Eb in Hsd.
      destruct (stops' st1) eqn:Es.
      * rewrite (termination_check_none _ Es Hsd). right.
        exists InvalidStateDict. now split.
      * rewrite (termination_check_quiet _ Es) in *.
        specialize (IH st1 Hc1 Hsd Hb).
        destruct (loop fuel st1) as [o ls]. cbn [fst snd] in *.
        apply IH. cbn in Hnb. rewrite E in Hnb. exact Hnb.
Qed.

(** *** The training loss of every logged epoch *)

Lemma epoch_training_loss (st st1 : LoopState') (l : EpochLog StateDict) :
  epoch' st = Ok (st1, l) ->
  let it :=
    iterate randperm (train_loader loaders) (generator (world st)) in
  let w0 := {| neural_net := neural_net (world st);
               optimizer := optimizer (world st);
               generator := snd it |} in
  checked_state l
  = neural_net (snd (train_batches train_step loaders (fst it) w0)) /\
  match batch_losses train_step loaders (fst it) w0 with
  | [] =>
      total_train_loss l
      = S754_zero (num_train - num_validation_examples loaders <? 0)
  | x :: xs =>
      total_train_loss l
      = fdiv (fold_left fadd xs (fadd (Z2F 0) x))
          (Z2F (num_train - num_validation_examples loaders))
  end.
Proof.
  unfold epoch.
  destruct (training_pass' (world st)) as [[tl w1]|] eqn:Et; cbn [bind];
    [|discriminate].
  destruct (validation_pass' w1) as [[vl w2]|] eqn:Ev; cbn [bind];
    [|discriminate].
  intros H; inversion H; subst; clear H.
  cbn [checked_state total_train_loss].
  apply validation_pass_net in Ev. rewrite Ev.
  destruct (training_pass_value _ _ _ Et) as [Hw Hl].
  split; [now rewrite Hw|exact Hl].
Qed.

Lemma loop_training_losses (fuel : nat) :
  forall st : LoopState',
    Forall
      (fun l =>
         exists w : World',
           let it := iterate randperm (train_loader loaders) (generator w) in
           let w0 := {| neural_net := neural_net w;
                        optimizer := optimizer w;
                        generator := snd it |} in
           checked_state l
           = neural_net (snd (train_batches train_step loaders (fst it) w0)) /\
           match batch_losses train_step loaders (fst it) w0 with
           | [] =>
               total_train_loss l
               = S754_zero (num_train - num_validation_examples loaders <? 0)
           | x :: xs =>
               total_train_loss l
               = fdiv (fold_left fadd xs (fadd (Z2F 0) x))
                   (Z2F (num_train - num_validation_examples loaders))
           end)
      (snd (loop fuel st)).
Proof.
  induction fuel as [|fuel IH]; intros st; destruct (converged st) eqn:Ec.
  1, 3: rewrite (loop_converged _ _ Ec); constructor.
  - cbn. rewrite Ec. constructor.
  - rewrite (loop_step _ _ Ec).
    destruct (epoch' st) as [[st1 l]|] eqn:He; [|constructor].
    pose proof (epoch_training_loss _ _ _ He) as Hl.
    destruct (termination_check' st1) as [st2|].
    + specialize (IH st2). destruct (loop fuel st2) as [o ls].
      cbn [snd] in *. constructor; [|exact IH]. now exists (world st).
    + cbn [snd]. constructor; [|constructor]. now exists (world st).
Qed.

(** *** Patience *)

Lemma forecast_S_inv (n : nat) (w : World') (o : EpochLog StateDict)
      (rest : list (EpochLog StateDict)) :
  forecast' (S n) w = Ok (o :: rest) ->
  exists w2,
    (forall st : LoopState',
        world st = w ->
        epoch' st
        = Ok (improvement_check st w2 (validation_loss o) (epochs st + 1), o)) /\
    forecast' n w2 = Ok rest /\
    neural_net w2 = checked_state o.
Proof.
  cbn [forecast].
  destruct (training_pass' w) as [[tl w1]|] eqn:Et; cbn [bind];
    [|discriminate].
  destruct (validation_pass' w1) as [[vl w2]|] eqn:Ev; cbn [bind];
    [|discriminate].
  destruct (forecast' n w2) as [ls|] eqn:Ef; cbn [bind]; [|discriminate].
  intros H; inversion H; subst; clear H. exists w2.
  split; [|split; [exact Ef|reflexivity]].
  intros st Hw. unfold epoch. rewrite Hw, Et. cbn [bind]. rewrite Ev.
  reflexivity.
Qed.

Lemma loop_patience_one (obs : list (EpochLog StateDict)) :
  stop_after_epochs = 1 ->
  forall (st : LoopState') (last : EpochLog StateDict) (sd : StateDict)
         (fuel : nat),
    converged st = false ->
    epochs_since_last_improvement st = 0 ->
    forecast' (S (length obs)) (world st) = Ok (obs ++ [last]) ->
    decreasing (best_validation_log_prob st) obs = true ->
    flt (validation_loss last) (last_loss (best_validation_log_prob st) obs)
    = false ->
    epochs st + Z.of_nat (length obs) <= max_epochs ->
    last_snapshot (best_model_state_dict st) obs = Some sd ->
    (length obs < fuel)%nat ->
    loop fuel st = (Returned sd, obs ++ [last]).
Proof.
  intros Hsae.
  induction obs as [|o obs IH];
    intros st last sd fuel Ec Ei Hf Hdec Hlast Hbudget Hsd Hfuel;
    (destruct fuel as [|fuel]; [cbn in Hfuel; lia|]);
    rewrite (loop_step _ _ Ec);
    apply forecast_S_inv in Hf as (w2 & He & Hf & Hnet);
    rewrite (He st eq_refl);
    match goal with
    | |- context [improvement_check st w2 ?v ?e] =>
        destruct (improvement_check_spec st w2 v e)
          as (Hw & Hep & Hc & Hyes & Hno);
        set (st1 := improvement_check st w2 v e) in *
    end.
  - cbn in Hlast, Hsd. destruct (Hno Hlast) as (_ & Hb & Hi).
    assert (Es : stops' st1 = true).
    { unfold stops. rewrite Hi, Ei, Hsae. apply orb_true_r. }
    rewrite <- Hb in Hsd.
    destruct (termination_check_some _ _ Es Hsd) as (st2 & -> & Hc2 & Hn & _).
    rewrite (loop_converged _ _ Hc2), Hn. reflexivity.
  - cbn [decreasing] in Hdec. apply andb_true_iff in Hdec as [Hlt Hdec].
    destruct (Hyes Hlt) as (Hb & Hs & Hi).
    cbn [length] in Hbudget, Hfuel.
    assert (Es : stops' st1 = false).
    { unfold stops. rewrite Hi, Hep, Hsae. apply orb_false_iff.
      split; [rewrite Z.gtb_ltb; apply Z.ltb_ge; lia|reflexivity]. }
    rewrite (termination_check_quiet _ Es).
    rewrite (IH st1 last sd fuel); [reflexivity|..].
    + now rewrite Hc.
    + exact Hi.
    + now rewrite Hw.
    + now rewrite Hb.
    + rewrite Hb. exact Hlast.
    + rewrite Hep. lia.
    + rewrite Hs, Hnet. exact Hsd.
    + lia.
Qed.

End Training.

(** ** fit_regression_net *)

Section Fit.

Context {Row Target StateDict Opt Gen : Type}.
Variable randperm : Gen -> nat -> list nat * Gen.
Variable Adam : StateDict -> float -> Opt.
Variable train_step :
  Dataset Row Target -> list nat -> World StateDict Opt Gen ->
  float * World StateDict Opt Gen.
Variable eval_loss : Dataset Row Target -> list nat -> StateDict -> float.

Local Abbreviation fit :=
  (fit_regression_net randperm Adam train_step eval_loss).

Lemma initial_state_best_so_far (w : World StateDict Opt Gen) :
  best_so_far [] (initial_state w).
Proof. cbn. now split. Qed.

(** C1. Whenever [fit_regression_net] returns, the network it returns
    holds exactly the parameters that were snapshotted in one of the
    epochs it ran, and no validation loss observed during the training is
    strictly below the loss of that epoch (which is itself below the
    initial sentinel 1e10). *)
Theorem returned_network_is_best_snapshot
        (fuel : nat) (net0 : StateDict) (theta : list Row)
        (label : list Target) (num_train bs : Z) (lr vf : float)
        (stop_after_epochs max_epochs : Z) (g : Gen)
        (net : StateDict) (log : list (EpochLog StateDict)) :
  fit fuel net0 theta label num_train bs lr vf stop_after_epochs max_epochs g
  = (Returned net, log) ->
  exists l,
    In l log /\ net = checked_state l /\
    flt (validation_loss l) f1e10 = true /\
    never_below (validation_loss l) log = true.
Proof.
  unfold fit_regression_net.
  destruct (data_loader _ _ _ _ _ _ _) as [[ld g']|]; [|discriminate].
  intros H.
  apply (loop_returns_best _ _ _ _ _ _ _ _ _ [] _ _
           (initial_state_best_so_far _)) in H; [exact H|].
  cbn. discriminate.
Qed.

(** C2, as the code has it. The loop body is entered at most
    [max(1, max_epochs + 1)] times, whatever the inputs: no more epochs
    than that are ever logged, and that much fuel always suffices for the
    call to return or raise.  For [max_epochs >= 0] this is
    [max_epochs + 1]; the body runs once before the counter is first
    compared, so one epoch runs even when [max_epochs] is negative. *)
Theorem epochs_within_budget
        (fuel : nat) (net0 : StateDict) (theta : list Row)
        (label : list Target) (num_train bs : Z) (lr vf : float)
        (stop_after_epochs max_epochs : Z) (g : Gen) :
  Z.of_nat
    (length (snd (fit fuel net0 theta label num_train bs lr vf
                      stop_after_epochs max_epochs g)))
  <= Z.max 1 (max_epochs + 1) /\
  (Z.max 1 (max_epochs + 1) <= Z.of_nat fuel ->
   fst (fit fuel net0 theta label num_train bs lr vf
            stop_after_epochs max_epochs g) <> OutOfFuel).
Proof.
  unfold fit_regression_net.
  destruct (data_loader _ _ _ _ _ _ _) as [[ld g']|];
    [|cbn; split; [lia|discriminate]].
  match goal with
  | |- context [while_not_converged _ _ _ _ _ _ _ _ ?st] =>
      pose proof (loop_within_budget randperm train_step eval_loss ld
                    num_train stop_after_epochs max_epochs fuel st eq_refl)
        as H
  end.
  cbn [initial_state epochs] in H. rewrite Z.sub_0_r in H. exact H.
Qed.

(** C5, as the code has it. With [stop_after_epochs = 1], if the
    validation losses of the first epochs decrease strictly from one
    epoch to the next, the last of them in an epoch within the epoch
    budget, and the loss of the following epoch is not lower, then the
    training stops in that following epoch: exactly one epoch after the
    last improvement, returning the snapshot of the improving epoch. *)
Theorem stops_one_epoch_after_last_improvement
        (fuel : nat) (net0 : StateDict) (theta : list Row)
        (label : list Target) (num_train bs : Z) (lr vf : float)
        (max_epochs : Z) (g g' : Gen) (ld : Loaders Row Target)
        (obs : list (EpochLog StateDict)) (best last : EpochLog StateDict) :
  data_loader randperm theta label num_train bs vf g = Ok (ld, g') ->
  forecast randperm train_step eval_loss ld num_train (S (S (length obs)))
    {| neural_net := net0; optimizer := Adam net0 lr; generator := g' |}
  = Ok (obs ++ [best; last]) ->
  decreasing f1e10 (obs ++ [best]) = true ->
  flt (validation_loss last) (validation_loss best) = false ->
  Z.of_nat (length obs) + 1 <= max_epochs ->
  (length obs + 2 <= fuel)%nat ->
  fit fuel net0 theta label num_train bs lr vf 1 max_epochs g
  = (Returned (checked_state best), obs ++ [best; last]).
Proof.
  intros Hd Hf Hdec Hlast Hbudget Hfuel.
  unfold fit_regression_net. rewrite Hd.
  replace (obs ++ [best; last]) with ((obs ++ [best]) ++ [last]) in *
    by now rewrite <- app_assoc.
  apply loop_patience_one; try reflexivity; cbn [initial_state world
    best_validation_log_prob best_model_state_dict epochs];
    rewrite ?length_app; cbn [length].
  - rewrite Nat.add_1_r. exact Hf.
  - exact Hdec.
  - unfold last_loss. rewrite fold_left_app. exact Hlast.
  - lia.
  - unfold last_snapshot. now rewrite fold_left_app.
  - lia.
Qed.

(** C6. In every epoch [fit_regression_net] logs, the reported training
    loss is the sum of that epoch's per-batch losses [loss.item()],
    added up from 0 in the order of the pass, divided by [num_train -
    num_validation_examples], where [num_train] is the argument of the
    call: a sum of batch means over an example count, whatever the
    number and the size of the batches (a pass without a batch reports
    the quotient [0 / (num_train - num_validation_examples)], a signed
    zero).  The parameters checked in that epoch are those the pass
    left. *)
Theorem reported_training_loss
        (fuel : nat) (net0 : StateDict) (theta : list Row)
        (label : list Target) (num_train bs : Z) (lr vf : float)
        (stop_after_epochs max_epochs : Z) (g g' : Gen)
        (ld : Loaders Row Target) :
  data_loader randperm theta label num_train bs vf g = Ok (ld, g') ->
  Forall
    (fun l =>
       exists w : World StateDict Opt Gen,
         let it := iterate randperm (train_loader ld) (generator w) in
         let w0 := {| neural_net := neural_net w;
                      optimizer := optimizer w;
                      generator := snd it |} in
         checked_state l
         = neural_net (snd (train_batches train_step ld (fst it) w0)) /\
         match batch_losses train_step ld (fst it) w0 with
         | [] =>
             total_train_loss l
             = S754_zero (num_train - num_validation_examples ld <? 0)
         | x :: xs =>
             total_train_loss l
             = fdiv (fold_left fadd xs (fadd (Z2F 0) x))
                 (Z2F (num_train - num_validation_examples ld))
         end)
    (snd (fit fuel net0 theta label num_train bs lr vf
              stop_after_epochs max_epochs g)).
Proof.
  intros Hd. unfold fit_regression_net. rewrite Hd.
  apply loop_training_losses.
Qed.

(** C7, as the code has it. When the split leaves no validation example
    ([num_validation_examples = 0]), [data_loader] raises while it
    builds the loaders: the validation loader is asked for the batch
    size [min(batch_size, 0)], which is rejected with ValueError (unless
    the two arrays already differ in length, which [TensorDataset]
    rejects first).  [fit_regression_net] therefore fails before its
    first epoch: no validation loss is produced or compared, and the
    validation normalisation is never run. *)
Theorem empty_validation_set_is_rejected
        (theta : list Row) (label : list Target) (num_train bs : Z)
        (vf : float) (g : Gen)
        (train val : list nat) (k : Z) (g1 : Gen) :
  split_indices randperm (length (slice_to theta num_train)) vf g
  = Ok (train, val, k, g1) ->
  Z.of_nat (length (slice_to theta num_train)) - k = 0 ->
  exists e,
    (e = ValueError \/ e = AssertionError) /\
    (length (slice_to label num_train) = length (slice_to theta num_train) ->
     e = ValueError) /\
    data_loader randperm theta label num_train bs vf g = Raise e /\
    forall fuel net0 lr stop_after_epochs max_epochs,
      fit fuel net0 theta label num_train bs lr vf
          stop_after_epochs max_epochs g
      = (Raised e, []).
Proof.
  intros Hs Hn.
  assert (Hd : exists e,
             (e = ValueError \/ e = AssertionError) /\
             (length (slice_to label num_train)
              = length (slice_to theta num_train) -> e = ValueError) /\
             data_loader randperm theta label num_train bs vf g = Raise e).
  { unfold data_loader. rewrite Hs. cbn [bind]. unfold TensorDataset.
    destruct (Nat.eqb_spec (length (slice_to theta num_train))
                (length (slice_to label num_train))) as [E|E]; cbn [bind].
    - exists ValueError. split; [now left|]. split; [reflexivity|].
      unfold new_DataLoader. destruct (bs <=? 0) eqn:Eb; cbn [bind];
        [reflexivity|].
      rewrite Hn.
      replace (Z.min bs 0 <=? 0) with true
        by (symmetry; apply Z.leb_le; lia).
      reflexivity.
    - exists AssertionError. split; [now right|]. split; [|reflexivity].
      intros E'. now rewrite E' in E. }
  destruct Hd as (e & He & Hlen & Hd). exists e.
  repeat split; auto.
  intros fuel net0 lr sae me. unfold fit_regression_net. now rewrite Hd.
Qed.

(** C10. If no validation loss of a run compares strictly below the
    sentinel 1e10 (every loss is NaN or at least 1e10), the call never
    returns a network: within the epoch budget it raises.  Unless one of
    the two normalisations raises first, no snapshot was ever taken and
    what raises is [load_state_dict(None)] in the branch of the
    termination condition that fires. *)
Theorem never_improving_run_fails
        (fuel : nat) (net0 : StateDict) (theta : list Row)
        (label : list Target) (num_train bs : Z) (lr vf : float)
        (stop_after_epochs max_epochs : Z) (g g' : Gen)
        (ld : Loaders Row Target) :
  data_loader randperm theta label num_train bs vf g = Ok (ld, g') ->
  Z.max 1 (max_epochs + 1) <= Z.of_nat fuel ->
  never_below f1e10
    (snd (fit fuel net0 theta label num_train bs lr vf
              stop_after_epochs max_epochs g)) = true ->
  exists e,
    fst (fit fuel net0 theta label num_train bs lr vf
             stop_after_epochs max_epochs g) = Raised e /\
    (divisor_ok (num_train - num_validation_examples ld) = true ->
     divisor_ok (num_validation_examples ld) = true ->
     e = InvalidStateDict).
Proof.
  intros Hd Hfuel Hnb.
  unfold fit_regression_net in *. rewrite Hd in *.
  match type of Hnb with
  | context [while_not_converged _ _ _ _ _ _ _ _ ?st] =>
      destruct (loop_within_budget randperm train_step eval_loss ld
                  num_train stop_after_epochs max_epochs fuel st eq_refl)
        as [_ Hterm];
      destruct (loop_without_improvement randperm train_step eval_loss ld
                  num_train stop_after_epochs max_epochs fuel st
                  eq_refl eq_refl eq_refl Hnb) as [H|H]; [|exact H]
  end.
  exfalso. apply Hterm; [|exact H].
  cbn [initial_state epochs]. rewrite Z.sub_0_r. exact Hfuel.
Qed.

End Fit.

(** ** The properties on the scripted world *)

Lemma scripted_randperm_perm (g n : nat) :
  Permutation (fst (Scripted.randperm g n)) (seq 0 n).
Proof.
  unfold Scripted.randperm, Scripted.rotate. cbn [fst].
  eapply Permutation_trans; [apply Permutation_app_comm|].
  rewrite firstn_skipn. apply Permutation_refl.
Qed.

Lemma split_partitions_the_indices_witness :
  split_indices Scripted.randperm (length (slice_to Scripted.six 6))
    Scripted.f0_5 0%nat
  = Ok ([0; 1; 2]%nat, [3; 4; 5]%nat, 3, 1%nat) /\
  [0; 1; 2]%nat ++ [3; 4; 5]%nat = fst (Scripted.randperm 0 6) /\
  NoDup ([0; 1; 2]%nat ++ [3; 4; 5]%nat) /\
  (forall i, In i [0; 1; 2]%nat -> ~ In i [3; 4; 5]%nat) /\
  (forall i, (i < 6)%nat <-> In i [0; 1; 2]%nat \/ In i [3; 4; 5]%nat).
Proof.
  assert (H : split_indices Scripted.randperm
                (length (slice_to Scripted.six 6)) Scripted.f0_5 0%nat
              = Ok ([0; 1; 2]%nat, [3; 4; 5]%nat, 3, 1%nat))
    by (vm_compute; reflexivity).
  split; [exact H|].
  destruct (split_partitions_the_indices Scripted.randperm
              scripted_randperm_perm Scripted.six Scripted.six 6 1
              Scripted.f0_5 0%nat _ _ _ _ H)
    as (H1 & _ & H3 & H4 & H5 & _).
  exact (conj H1 (conj H3 (conj H4 H5))).
Defined.

Lemma data_loader_deterministic_witness :
  data_loader Scripted.randperm Scripted.six Scripted.six 6 1
    Scripted.f0_5 0%nat
  = Ok (Scripted.loaders6, 1%nat) /\
  data_loader Scripted.randperm Scripted.six Scripted.six 6 1
    Scripted.f0_5 0%nat
  = data_loader Scripted.randperm Scripted.six Scripted.six 6 1
      Scripted.f0_5 0%nat.
Proof.
  split; [vm_compute; reflexivity|].
  exact (proj1 (data_loader_deterministic Scripted.randperm
                  Scripted.six Scripted.six Scripted.six Scripted.six
                  6 6 1 1 Scripted.f0_5 Scripted.f0_5 0%nat 0%nat
                  eq_refl eq_refl eq_refl eq_refl eq_refl eq_refl)).
Defined.

Lemma scenario_100_samples_witness :
  length (repeat tt 100) = 100%nat /\
  exists ld g',
    data_loader Scripted.randperm (repeat tt 100) (repeat tt 100)
      100 10 f0_1 7%nat = Ok (ld, g') /\
    length (indices (train_loader ld)) = 90%nat /\
    length (indices (val_loader ld)) = 10%nat /\
    num_validation_examples ld = 10 /\
    forall g1,
      length (fst (iterate Scripted.randperm (train_loader ld) g1)) = 9%nat /\
      length (fst (iterate Scripted.randperm (val_loader ld) g1)) = 1%nat.
Proof.
  split; [reflexivity|].
  exact (scenario_100_samples Scripted.randperm scripted_randperm_perm
           (repeat tt 100) (repeat tt 100) 7%nat eq_refl eq_refl).
Defined.

Lemma validation_iterator_batches_witness :
  data_loader Scripted.randperm Scripted.six Scripted.six 6 1
    Scripted.f0_5 0%nat
  = Ok (Scripted.loaders6, 1%nat) /\
  batch_size (val_loader Scripted.loaders6)
  = Z.min 1 (num_validation_examples Scripted.loaders6) /\
  forall g1,
    Permutation
      (fst (subset_random_sampler Scripted.randperm
              (indices (val_loader Scripted.loaders6)) g1))
      (indices (val_loader Scripted.loaders6)) /\
    Forall (fun b => length b = 1%nat)
      (fst (iterate Scripted.randperm (val_loader Scripted.loaders6) g1)) /\
    length (fst (iterate Scripted.randperm (val_loader Scripted.loaders6) g1))
    = 3%nat.
Proof.
  assert (H : data_loader Scripted.randperm Scripted.six Scripted.six 6 1
                Scripted.f0_5 0%nat = Ok (Scripted.loaders6, 1%nat))
    by (vm_compute; reflexivity).
  split; [exact H|].
  destruct (validation_iterator_batches Scripted.randperm
              scripted_randperm_perm _ _ _ _ _ _ _ _ H) as [Hb Hg].
  split; [exact Hb|].
  intros g1. destruct (Hg g1) as (H1 & H2 & H3 & _).
  exact (conj H1 (conj H2 H3)).
Defined.

(** Two consecutive passes over one validation loader visit the
    validation indices in different orders. *)
Lemma validation_order_changes_between_passes :
  data_loader Scripted.randperm Scripted.six Scripted.six 6 1
    Scripted.f0_5 0%nat
  = Ok (Scripted.loaders6, 1%nat) /\
  iterate Scripted.randperm (val_loader Scripted.loaders6) 1%nat
  = ([[4]; [5]; [3]]%nat, 2%nat) /\
  iterate Scripted.randperm (val_loader Scripted.loaders6) 2%nat
  = ([[5]; [3]; [4]]%nat, 3%nat).
Proof. repeat split; vm_compute; reflexivity. Qed.

Lemma reported_training_loss_witness :
  data_loader Scripted.randperm Scripted.six Scripted.six 6 1
    Scripted.f0_5 0%nat
  = Ok (Scripted.loaders6, 1%nat) /\
  batch_losses Scripted.graded_step Scripted.loaders6
    (fst (iterate Scripted.randperm
            (train_loader Scripted.loaders6) 1%nat))
    {| neural_net := 0%nat; optimizer := tt; generator := 2%nat |}
  = [Z2F 1; Z2F 2; Z2F 3] /\
  map (@total_train_loss nat)
    (snd (fit_regression_net Scripted.randperm Scripted.Adam
            Scripted.graded_step (Scripted.eval_loss Scripted.late_best)
            10 0%nat Scripted.six Scripted.six 6 1 f0_1 Scripted.f0_5
            1 1000 0%nat))
  = [fdiv (fold_left fadd [Z2F 2; Z2F 3] (fadd (Z2F 0) (Z2F 1))) (Z2F (6 - 3));
     fdiv (fold_left fadd [Z2F 5; Z2F 6] (fadd (Z2F 0) (Z2F 4))) (Z2F (6 - 3))] /\
  fdiv (fold_left fadd [Z2F 2; Z2F 3] (fadd (Z2F 0) (Z2F 1))) (Z2F (6 - 3))
  = Z2F 2 /\
  Forall
    (fun l =>
       exists w : World nat unit nat,
         let it :=
           iterate Scripted.randperm (train_loader Scripted.loaders6)
             (generator w) in
         let w0 := {| neural_net := neural_net w;
                      optimizer := optimizer w;
                      generator := snd it |} in
         checked_state l
         = neural_net
             (snd (train_batches Scripted.graded_step Scripted.loaders6
                     (fst it) w0)) /\
         match batch_losses Scripted.graded_step Scripted.loaders6
                 (fst it) w0 with
         | [] =>
             total_train_loss l
             = S754_zero
                 (6 - num_validation_examples Scripted.loaders6 <? 0)
         | x :: xs =>
             total_train_loss l
             = fdiv (fold_left fadd xs (fadd (Z2F 0) x))
                 (Z2F (6 - num_validation_examples Scripted.loaders6))
         end)
    (snd (fit_regression_net Scripted.randperm Scripted.Adam
            Scripted.graded_step (Scripted.eval_loss Scripted.late_best)
            10 0%nat Scripted.six Scripted.six 6 1 f0_1 Scripted.f0_5
            1 1000 0%nat)).
Proof.
  assert (H : data_loader Scripted.randperm Scripted.six Scripted.six 6 1
                Scripted.f0_5 0%nat = Ok (Scripted.loaders6, 1%nat))
    by (vm_compute; reflexivity).
  split; [exact H|].
  split; [vm_compute; reflexivity|].
  split; [vm_compute; reflexivity|].
  split; [vm_compute; reflexivity|].
  exact (reported_training_loss Scripted.randperm Scripted.Adam
           Scripted.graded_step (Scripted.eval_loss Scripted.late_best)
           10 0%nat Scripted.six Scripted.six 6 1 f0_1 Scripted.f0_5
           1 1000 0%nat 1%nat Scripted.loaders6 H).
Defined.

Lemma empty_validation_set_is_rejected_witness :
  split_indices Scripted.randperm (length (slice_to [tt; tt] 2)) (Z2F 0)
    0%nat
  = Ok ([0; 1]%nat, [], 2, 1%nat) /\
  Z.of_nat (length (slice_to [tt; tt] 2)) - 2 = 0 /\
  exists e,
    (e = ValueError \/ e = AssertionError) /\
    (length (slice_to [tt; tt] 2) = length (slice_to [tt; tt] 2) ->
     e = ValueError) /\
    data_loader Scripted.randperm [tt; tt] [tt; tt] 2 1 (Z2F 0) 0%nat
    = Raise e /\
    forall fuel net0 lr stop_after_epochs max_epochs,
      fit_regression_net Scripted.randperm Scripted.Adam Scripted.train_step
        (Scripted.eval_loss Scripted.late_best) fuel net0
        [tt; tt] [tt; tt] 2 1 lr (Z2F 0) stop_after_epochs max_epochs 0%nat
      = (Raised e, []).
Proof.
  assert (H : split_indices Scripted.randperm
                (length (slice_to [tt; tt] 2)) (Z2F 0) 0%nat
              = Ok ([0; 1]%nat, [], 2, 1%nat))
    by (vm_compute; reflexivity).
  split; [exact H|]. split; [reflexivity|].
  exact (empty_validation_set_is_rejected Scripted.randperm Scripted.Adam
           Scripted.train_step (Scripted.eval_loss Scripted.late_best)
           [tt; tt] [tt; tt] 2 1 (Z2F 0) 0%nat _ _ _ _ H eq_refl).
Defined.

(** With [validation_fraction = 0.0] the split leaves no validation
    example, and the call fails while the loaders are built: no epoch
    runs and no validation loss, finite or not, is ever produced. *)
Lemma empty_validation_set_fails_before_training :
  split_indices Scripted.randperm (length (slice_to [tt; tt] 2)) (Z2F 0)
    0%nat
  = Ok ([0; 1]%nat, [], 2, 1%nat) /\
  Z.of_nat (length (slice_to [tt; tt] 2)) - 2 = 0 /\
  data_loader Scripted.randperm [tt; tt] [tt; tt] 2 1 (Z2F 0) 0%nat
  = Raise ValueError /\
  fit_regression_net Scripted.randperm Scripted.Adam Scripted.train_step
    (Scripted.eval_loss Scripted.late_best) 10
    0%nat [tt; tt] [tt; tt] 2 1 f0_1 (Z2F 0) 20 1000 0%nat
  = (Raised ValueError, []).
Proof. repeat split; vm_compute; reflexivity. Qed.

Lemma returned_network_is_best_snapshot_witness :
  Scripted.fit Scripted.late_best 2 1000 10
  = (Returned 4%nat,
     [Scripted.entry 1 (Z2F 5); Scripted.entry 2 (Z2F 3);
      Scripted.entry 3 (Z2F 4); Scripted.entry 4 (Z2F 2);
      Scripted.entry 5 (Z2F 3); Scripted.entry 6 nan]) /\
  exists l,
    In l [Scripted.entry 1 (Z2F 5); Scripted.entry 2 (Z2F 3);
          Scripted.entry 3 (Z2F 4); Scripted.entry 4 (Z2F 2);
          Scripted.entry 5 (Z2F 3); Scripted.entry 6 nan] /\
    4%nat = checked_state l /\
    flt (validation_loss l) f1e10 = true /\
    never_below (validation_loss l)
      [Scripted.entry 1 (Z2F 5); Scripted.entry 2 (Z2F 3);
       Scripted.entry 3 (Z2F 4); Scripted.entry 4 (Z2F 2);
       Scripted.entry 5 (Z2F 3); Scripted.entry 6 nan] = true.
Proof.
  assert (H : Scripted.fit Scripted.late_best 2 1000 10
              = (Returned 4%nat,
                 [Scripted.entry 1 (Z2F 5); Scripted.entry 2 (Z2F 3);
                  Scripted.entry 3 (Z2F 4); Scripted.entry 4 (Z2F 2);
                  Scripted.entry 5 (Z2F 3); Scripted.entry 6 nan]))
    by (vm_compute; reflexivity).
  split; [exact H|].
  exact (returned_network_is_best_snapshot Scripted.randperm Scripted.Adam
           Scripted.train_step (Scripted.eval_loss Scripted.late_best)
           _ _ _ _ _ _ _ _ _ _ _ _ _ H).
Defined.

(** With [max_epochs = -1] one epoch runs, more than [max_epochs + 1]. *)
Lemma one_epoch_runs_on_negative_budget :
  Scripted.fit Scripted.decreases_once 20 (-1) 10
  = (Returned 1%nat, [Scripted.entry 1 (Z2F 5)]) /\
  (Z.of_nat (length (snd (Scripted.fit Scripted.decreases_once 20 (-1) 10)))
   <=? -1 + 1) = false.
Proof. split; vm_compute; reflexivity. Qed.

Lemma stops_one_epoch_after_last_improvement_witness :
  fit_regression_net Scripted.randperm Scripted.Adam Scripted.train_step
    (Scripted.eval_loss Scripted.decreases_once) 10
    0%nat [tt; tt] [tt; tt] 2 1 f0_1 Scripted.f0_5 1 1000 0%nat
  = (Returned (checked_state (Scripted.entry 2 (Z2F 3))),
     [Scripted.entry 1 (Z2F 5)]
       ++ [Scripted.entry 2 (Z2F 3); Scripted.entry 3 (Z2F 3)]).
Proof.
  apply (stops_one_epoch_after_last_improvement Scripted.randperm
           Scripted.Adam Scripted.train_step
           (Scripted.eval_loss Scripted.decreases_once)
           10 0%nat [tt; tt] [tt; tt] 2 1 f0_1 Scripted.f0_5 1000
           0%nat 1%nat Scripted.loaders
           [Scripted.entry 1 (Z2F 5)]
           (Scripted.entry 2 (Z2F 3)) (Scripted.entry 3 (Z2F 3)));
    try (vm_compute; reflexivity); cbn; lia.
Defined.

(** Losses 5, 3, 3, 3, 3 with [stop_after_epochs = 1]: the single
    decrease is in epoch 2 and the training stops after epoch 3, not
    after epoch 4. *)
Lemma patience_one_stops_after_three_epochs :
  forecast Scripted.randperm Scripted.train_step
    (Scripted.eval_loss Scripted.decreases_once) Scripted.loaders 2 5
    Scripted.world0
  = Ok [Scripted.entry 1 (Z2F 5); Scripted.entry 2 (Z2F 3);
        Scripted.entry 3 (Z2F 3); Scripted.entry 4 (Z2F 3);
        Scripted.entry 5 (Z2F 3)] /\
  Scripted.fit Scripted.decreases_once 1 1000 10
  = (Returned 2%nat,
     [Scripted.entry 1 (Z2F 5); Scripted.entry 2 (Z2F 3);
      Scripted.entry 3 (Z2F 3)]) /\
  (length (snd (Scripted.fit Scripted.decreases_once 1 1000 10))
   =? 2 + 2)%nat = false.
Proof. repeat split; vm_compute; reflexivity. Qed.

Lemma never_improving_run_fails_witness :
  never_below f1e10 (snd (Scripted.fit Scripted.all_nan 2 3 4)) = true /\
  snd (Scripted.fit Scripted.all_nan 2 3 4)
  = [Scripted.entry 1 nan; Scripted.entry 2 nan] /\
  fst (Scripted.fit Scripted.all_nan 2 3 4) = Raised InvalidStateDict /\
  exists e,
    fst (Scripted.fit Scripted.all_nan 2 3 4) = Raised e /\
    (divisor_ok (2 - num_validation_examples Scripted.loaders) = true ->
     divisor_ok (num_validation_examples Scripted.loaders) = true ->
     e = InvalidStateDict).
Proof.
  split; [vm_compute; reflexivity|]. split; [vm_compute; reflexivity|].
  split; [vm_compute; reflexivity|].
  apply (never_improving_run_fails Scripted.randperm Scripted.Adam
           Scripted.train_step (Scripted.eval_loss Scripted.all_nan)
           4 0%nat [tt; tt] [tt; tt] 2 1 f0_1 Scripted.f0_5 2 3
           0%nat 1%nat Scripted.loaders);
    try (vm_compute; reflexivity).
  cbn. lia.
Defined.

(** * Further properties of the code *)

(** ** data_loader: what the loaders sample from *)

Lemma NoDup_firstn {A} (k : nat) (l : list A) : NoDup l -> NoDup (firstn k l).
Proof.
  intros H. rewrite <- (firstn_skipn k l) in H.
  now apply NoDup_app_remove_r in H.
Qed.

Lemma in_firstn {A} (k : nat) (l : list A) (x : A) :
  In x (firstn k l) -> In x l.
Proof.
  intros H. rewrite <- (firstn_skipn k l). apply in_or_app. now left.
Qed.

Lemma NoDup_app_disjoint {A} (l1 l2 : list A) (x : A) :
  NoDup (l1 ++ l2) -> In x l1 -> ~ In x l2.
Proof.
  induction l1 as [|a l1 IH]; intros Hnd Hi Hv; [easy|].
  cbn in Hnd. inversion Hnd as [|? ? Hna Hnd']; subst.
  destruct Hi as [->|Hi].
  - apply Hna. apply in_or_app. now right.
  - now apply IH.
Qed.

Section Coverage.

Context {Row Target Gen : Type}.
Variable randperm : Gen -> nat -> list nat * Gen.
Hypothesis randperm_perm :
  forall g n, Permutation (fst (randperm g n)) (seq 0 n).

Lemma data_loader_datasets (theta : list Row) (stats : list Target)
      (num_train bs : Z) (vf : float) (g : Gen)
      (ld : Loaders Row Target) (g' : Gen) :
  data_loader randperm theta stats num_train bs vf g = Ok (ld, g') ->
  dataset (train_loader ld)
  = {| ds_theta := slice_to theta num_train;
       ds_label := slice_to stats num_train |} /\
  dataset (val_loader ld) = dataset (train_loader ld) /\
  length (slice_to stats num_train) = length (slice_to theta num_train).
Proof.
  unfold data_loader.
  destruct (split_indices _ _ _ _) as [[[[tr va] k] g1]|]; cbn [bind];
    [|discriminate].
  unfold TensorDataset.
  destruct (Nat.eqb_spec (length (slice_to theta num_train))
              (length (slice_to stats num_train))) as [E|E];
    cbn [bind]; [|discriminate].
  unfold new_DataLoader.
  destruct (bs <=? 0); cbn [bind]; [discriminate|].
  destruct (Z.min bs _ <=? 0); cbn [bind]; [discriminate|].
  intros H; inversion H; subst; clear H. cbn. now repeat split.
Qed.

Lemma data_loader_indices (theta : list Row) (stats : list Target)
      (num_train bs : Z) (vf : float) (g : Gen)
      (ld : Loaders Row Target) (g' : Gen) :
  data_loader randperm theta stats num_train bs vf g = Ok (ld, g') ->
  Permutation (indices (train_loader ld) ++ indices (val_loader ld))
              (seq 0 (length (slice_to theta num_train))) /\
  exists k,
    indices (train_loader ld)
    = slice_to (fst (randperm g (length (slice_to theta num_train)))) k /\
    indices (val_loader ld)
    = slice_from (fst (randperm g (length (slice_to theta num_train)))) k /\
    num_validation_examples ld
    = Z.of_nat (length (slice_to theta num_train)) - k.
Proof.
  intros H. apply data_loader_inv in H as (k & Hs & Hn & _).
  apply split_indices_inv in Hs as (_ & Ht & Hv & _).
  split.
  - rewrite Ht, Hv, slice_app. apply randperm_perm.
  - exists k. auto.
Qed.

(** The batches of one pass are pairwise disjoint chunks of the loader's
    indices, each of the loader's batch size. *)
Lemma iterate_batches (ld : DataLoader Row Target) (g : Gen) :
  0 < batch_size ld -> NoDup (indices ld) ->
  NoDup (concat (fst (iterate randperm ld g))) /\
  Forall (fun b => length b = Z.to_nat (batch_size ld))
         (fst (iterate randperm ld g)) /\
  (forall b i, In b (fst (iterate randperm ld g)) -> In i b ->
               In i (indices ld)).
Proof.
  intros Hb Hnd. rewrite iterate_fst.
  pose proof (subset_random_sampler_perm randperm randperm_perm
                (indices ld) g) as Hp.
  set (order := fst (subset_random_sampler randperm (indices ld) g)) in *.
  destruct (batch_sampler_spec (Z.to_nat (batch_size ld)) order [])
    as (_ & H2 & H3); [cbn; lia|].
  cbn [app] in H3. repeat split.
  - rewrite H3. apply NoDup_firstn.
    apply (Permutation_NoDup (Permutation_sym Hp) Hnd).
  - exact H2.
  - intros b i Hin Hi. apply (Permutation_in _ Hp).
    apply (in_firstn (Z.to_nat (batch_size ld)
                      * ((length (@nil nat) + length order)
                         / Z.to_nat (batch_size ld))) order).
    rewrite <- H3. apply in_concat. eauto.
Qed.

(** X1. Only the leading samples are used: the shared dataset is the
    slice [theta[:num_train]] (for [num_train >= 0] its first
    [min(num_train, len(theta))] rows), both loaders share it, and every
    index either loader samples addresses a row of it. *)
Theorem only_the_leading_samples_are_used
        (theta : list Row) (stats : list Target) (num_train bs : Z)
        (vf : float) (g : Gen) (ld : Loaders Row Target) (g' : Gen) :
  data_loader randperm theta stats num_train bs vf g = Ok (ld, g') ->
  let num_examples := length (ds_theta (dataset (train_loader ld))) in
  ds_theta (dataset (train_loader ld)) = firstn num_examples theta /\
  ds_label (dataset (train_loader ld)) = firstn num_examples stats /\
  dataset (val_loader ld) = dataset (train_loader ld) /\
  (0 <= num_train ->
   num_examples = Nat.min (Z.to_nat num_train) (length theta)) /\
  (forall i,
      In i (indices (train_loader ld)) \/ In i (indices (val_loader ld)) ->
      (i < num_examples)%nat).
Proof.
  intros H num_examples.
  destruct (data_loader_datasets _ _ _ _ _ _ _ _ H) as (Hds & Hv & Hlen).
  destruct (data_loader_indices _ _ _ _ _ _ _ _ H) as (Hp & _).
  subst num_examples. rewrite Hds. cbn [ds_theta ds_label].
  repeat split.
  - now rewrite slice_to_length.
  - rewrite <- Hlen. now rewrite slice_to_length.
  - now rewrite Hv.
  - intros Hn. rewrite slice_to_length. unfold slice_bound.
    destruct (Z.ltb_spec num_train 0); [lia|reflexivity].
  - intros i Hi. apply in_app_iff in Hi.
    apply (Permutation_in _ Hp), in_seq in Hi. lia.
Qed.

(** X2. The batches respect the split: in every pass each training batch
    holds [batch_size] training indices and no validation index, each
    validation batch holds validation indices and no training index, and
    no index occurs twice within a pass. *)
Theorem batches_respect_the_split
        (theta : list Row) (stats : list Target) (num_train bs : Z)
        (vf : float) (g : Gen) (ld : Loaders Row Target) (g' : Gen)
        (g1 : Gen) :
  data_loader randperm theta stats num_train bs vf g = Ok (ld, g') ->
  let train_batches := fst (iterate randperm (train_loader ld) g1) in
  let val_batches := fst (iterate randperm (val_loader ld) g1) in
  Forall (fun b => length b = Z.to_nat bs) train_batches /\
  NoDup (concat train_batches) /\ NoDup (concat val_batches) /\
  (forall b i, In b train_batches -> In i b ->
               In i (indices (train_loader ld)) /\
               ~ In i (indices (val_loader ld))) /\
  (forall b i, In b val_batches -> In i b ->
               In i (indices (val_loader ld)) /\
               ~ In i (indices (train_loader ld))).
Proof.
  intros H tb vb.
  destruct (data_loader_indices _ _ _ _ _ _ _ _ H) as (Hp & _).
  apply data_loader_inv in H as (k & _ & _ & Hbt & Hbv & Hbs & Hn).
  assert (Hnd : NoDup (indices (train_loader ld) ++ indices (val_loader ld)))
    by (apply (Permutation_NoDup (Permutation_sym Hp)), seq_NoDup).
  destruct (iterate_batches (train_loader ld) g1) as (T1 & T2 & T3);
    [lia|now apply NoDup_app_remove_r in Hnd|].
  destruct (iterate_batches (val_loader ld) g1) as (V1 & V2 & V3);
    [lia|now apply NoDup_app_remove_l in Hnd|].
  rewrite Hbt in T2. repeat split; auto.
  - eapply T3; eassumption.
  - eapply NoDup_app_disjoint; [exact Hnd|]. eapply T3; eassumption.
  - eapply V3; eassumption.
  - intros Ht. eapply NoDup_app_disjoint; [exact Hnd|exact Ht|].
    eapply V3; eassumption.
Qed.

(** X3. The two index sets always add up to the retained samples, and
    whenever the reported [num_validation_examples] lies between 0 and
    their number, it is the size of the validation set and the training
    set holds the rest. *)
Theorem split_sizes
        (theta : list Row) (stats : list Target) (num_train bs : Z)
        (vf : float) (g : Gen) (ld : Loaders Row Target) (g' : Gen) :
  data_loader randperm theta stats num_train bs vf g = Ok (ld, g') ->
  let num_examples := length (slice_to theta num_train) in
  (length (indices (train_loader ld)) + length (indices (val_loader ld))
   = num_examples)%nat /\
  (0 <= num_validation_examples ld <= Z.of_nat num_examples ->
   Z.of_nat (length (indices (val_loader ld)))
   = num_validation_examples ld /\
   Z.of_nat (length (indices (train_loader ld)))
   = Z.of_nat num_examples - num_validation_examples ld).
Proof.
  intros H num_examples.
  destruct (data_loader_indices _ _ _ _ _ _ _ _ H) as (Hp & k & Ht & Hv & Hn).
  fold num_examples in Hp, Ht, Hv, Hn.
  pose proof (Permutation_length (randperm_perm g num_examples)) as Hl.
  rewrite length_seq in Hl.
  split.
  - apply Permutation_length in Hp.
    now rewrite length_app, length_seq in Hp.
  - intros Hr. rewrite Ht, Hv, slice_to_length, slice_from_length, Hl.
    unfold slice_bound. destruct (Z.ltb_spec k 0); lia.
Qed.

(** With a batch size of at least the size of the validation set, a
    pass over the validation loader is one batch holding the whole set. *)
Lemma single_validation_batch
      (theta : list Row) (stats : list Target) (num_train bs : Z)
      (vf : float) (g : Gen) (ld : Loaders Row Target) (g' : Gen)
      (g1 : Gen) :
  data_loader randperm theta stats num_train bs vf g = Ok (ld, g') ->
  num_validation_examples ld
  <= Z.of_nat (length (slice_to theta num_train)) ->
  num_validation_examples ld <= bs ->
  exists b, fst (iterate randperm (val_loader ld) g1) = [b] /\
            Permutation b (indices (val_loader ld)).
Proof.
  intros H Hle Hbig.
  destruct (data_loader_indices _ _ _ _ _ _ _ _ H) as (_ & k & _ & Hv & Hn).
  pose proof (Permutation_length
                (randperm_perm g (length (slice_to theta num_train)))) as Hl.
  rewrite length_seq in Hl.
  apply data_loader_inv in H as (_ & _ & _ & _ & Hbv & Hbs & Hpos).
  assert (Hlen : Z.of_nat (length (indices (val_loader ld)))
                 = num_validation_examples ld).
  { rewrite Hv, slice_from_length, Hl. unfold slice_bound.
    destruct (Z.ltb_spec k 0); lia. }
  pose proof (subset_random_sampler_perm randperm randperm_perm
                (indices (val_loader ld)) g1) as Hp.
  rewrite iterate_fst.
  set (order := fst (subset_random_sampler randperm
                       (indices (val_loader ld)) g1)) in *.
  assert (Em : Z.to_nat (batch_size (val_loader ld)) = length order)
    by (rewrite (Permutation_length Hp); lia).
  assert (Hm : (1 <= length order)%nat)
    by (rewrite (Permutation_length Hp); lia).
  destruct (batch_sampler_spec (length order) order []) as (H1 & H2 & H3);
    [cbn; lia|].
  cbn [length app] in H1, H3. rewrite Nat.add_0_l in H1, H3.
  rewrite Nat.div_same, ?Nat.mul_1_r, ?firstn_all in * by lia.
  rewrite Em.
  destruct (batch_sampler (length order) [] order) as [|b [|b' rest]];
    cbn in H1; try discriminate.
  exists b. cbn in H3. rewrite app_nil_r in H3. subst b.
  split; [reflexivity|exact Hp].
Qed.

(** X4. A validation pass is never empty: whenever the reported
    [num_validation_examples] does not exceed the retained samples, every
    pass over the validation loader yields at least one full batch, and
    exactly one, holding every validation index, when [batch_size] is at
    least [num_validation_examples]. *)
Theorem validation_pass_has_a_batch
        (theta : list Row) (stats : list Target) (num_train bs : Z)
        (vf : float) (g : Gen) (ld : Loaders Row Target) (g' : Gen)
        (g1 : Gen) :
  data_loader randperm theta stats num_train bs vf g = Ok (ld, g') ->
  num_validation_examples ld
  <= Z.of_nat (length (slice_to theta num_train)) ->
  let val_batches := fst (iterate randperm (val_loader ld) g1) in
  (1 <= length val_batches)%nat /\
  (num_validation_examples ld <= bs ->
   exists b, val_batches = [b] /\
             Permutation b (indices (val_loader ld))).
Proof.
  intros H Hle vb.
  split; [|intros Hbig; eapply single_validation_batch; eassumption].
  destruct (data_loader_indices _ _ _ _ _ _ _ _ H) as (_ & k & _ & Hv & Hn).
  pose proof (Permutation_length
                (randperm_perm g (length (slice_to theta num_train)))) as Hl.
  rewrite length_seq in Hl.
  apply data_loader_inv in H as (_ & _ & _ & _ & Hbv & Hbs & Hpos).
  assert (Hlen : Z.of_nat (length (indices (val_loader ld)))
                 = num_validation_examples ld).
  { rewrite Hv, slice_from_length, Hl. unfold slice_bound.
    destruct (Z.ltb_spec k 0); lia. }
  subst vb. rewrite iterate_length by (auto; lia).
  apply Nat.div_le_lower_bound; lia.
Qed.

End Coverage.

(** ** The passes and the stopping rule *)

Lemma data_loader_raises {Row Target Gen : Type}
      (randperm : Gen -> nat -> list nat * Gen)
      (theta : list Row) (stats : list Target) (num_train bs : Z)
      (vf : float) (g : Gen) (e : exn) :
  data_loader randperm theta stats num_train bs vf g = Raise e ->
  e = OverflowError \/ e = ValueError \/ e = AssertionError.
Proof.
  unfold data_loader, split_indices, float_of_int.
  destruct (randperm g _) as [p g1].
  destruct (Z2F _); cbn [bind];
    try (intros H; inversion H; now auto);
    (destruct (int_of_float _) as [k|e'] eqn:Ei; cbn [bind];
     [|intros H; inversion H; subst;
       match type of Ei with
       | int_of_float ?x = _ => destruct x; inversion Ei; auto
       end]);
    unfold TensorDataset; destruct (_ =? _)%nat; cbn [bind];
    try (intros H; inversion H; now auto);
    unfold new_DataLoader; destruct (bs <=? 0); cbn [bind];
    try (intros H; inversion H; now auto);
    destruct (Z.min bs _ <=? 0); cbn [bind];
    intros H; inversion H; auto.
Qed.

Section Passes.

Context {Row Target StateDict Opt Gen : Type}.
Variable randperm : Gen -> nat -> list nat * Gen.
Hypothesis randperm_perm :
  forall g n, Permutation (fst (randperm g n)) (seq 0 n).
Variable train_step :
  Dataset Row Target -> list nat -> World StateDict Opt Gen ->
  float * World StateDict Opt Gen.
Variable eval_loss : Dataset Row Target -> list nat -> StateDict -> float.

(** X5. A training set smaller than one batch is never trained on: when
    the training loader holds fewer indices than [batch_size], a training
    pass that completes takes no optimisation step (network and optimizer
    are as before) and reports a loss of zero. *)
Theorem training_pass_without_a_full_batch
        (loaders : Loaders Row Target) (num_train : Z)
        (w w' : World StateDict Opt Gen) (loss : float) :
  (length (indices (train_loader loaders))
   < Z.to_nat (batch_size (train_loader loaders)))%nat ->
  training_pass randperm train_step loaders num_train w = Ok (loss, w') ->
  neural_net w' = neural_net w /\ optimizer w' = optimizer w /\
  (loss = S754_zero false \/ loss = S754_zero true).
Proof.
  intros Hlt. unfold training_pass.
  pose proof (iterate_length randperm randperm_perm (train_loader loaders)
                (generator w) ltac:(lia)) as Hl.
  rewrite (Nat.div_small _ _ Hlt) in Hl.
  destruct (iterate randperm (train_loader loaders) (generator w))
    as [batches g]. cbn [fst] in Hl.
  destruct batches; [|discriminate]. cbn [train_batches fold_left].
  unfold train_batches, true_divide. cbn [fold_left].
  destruct (num_train - num_validation_examples loaders) as [|d|d];
    cbn; intros H; inversion H; subst; cbn; auto.
Qed.

(** X9. With one validation batch the validation loss is the loss of the
    whole validation set divided once more by its size: when
    [batch_size] is at least [num_validation_examples], a completed
    validation pass evaluates the network on a single batch that holds
    every validation index, reports that value divided by
    [num_validation_examples], and leaves network and optimizer as they
    were. *)
Theorem validation_loss_on_one_batch
        (theta : list Row) (stats : list Target) (num_train bs : Z)
        (vf : float) (g : Gen) (ld : Loaders Row Target) (g' : Gen)
        (w w' : World StateDict Opt Gen) (loss : float) :
  data_loader randperm theta stats num_train bs vf g = Ok (ld, g') ->
  num_validation_examples ld
  <= Z.of_nat (length (slice_to theta num_train)) ->
  num_validation_examples ld <= bs ->
  validation_pass randperm eval_loss ld w = Ok (loss, w') ->
  neural_net w' = neural_net w /\ optimizer w' = optimizer w /\
  exists b d,
    Permutation b (indices (val_loader ld)) /\
    float_of_int (num_validation_examples ld) = Ok d /\
    loss = fdiv (fadd (Z2F 0)
                   (eval_loss (dataset (val_loader ld)) b (neural_net w)))
             d.
Proof.
  intros Hd Hle Hbig. unfold validation_pass.
  destruct (single_validation_batch randperm randperm_perm _ _ _ _ _ _ _ _
              (generator w) Hd Hle Hbig) as (b & Hb & Hp).
  destruct (iterate randperm (val_loader ld) (generator w)) as [batches g1].
  cbn [fst] in Hb. subst batches. cbn [fold_left num_add].
  unfold true_divide.
  destruct (num_validation_examples ld =? 0); cbn [bind]; [discriminate|].
  destruct (float_of_int (num_validation_examples ld)) as [d|] eqn:Ed;
    cbn [bind]; [|discriminate].
  intros H; inversion H; subst; clear H. cbn.
  repeat split. exists b, d. auto.
Qed.

End Passes.

Section Stopping.

Context {Row Target StateDict Opt Gen : Type}.
Variable randperm : Gen -> nat -> list nat * Gen.
Variable Adam : StateDict -> float -> Opt.
Variable train_step :
  Dataset Row Target -> list nat -> World StateDict Opt Gen ->
  float * World StateDict Opt Gen.
Variable eval_loss : Dataset Row Target -> list nat -> StateDict -> float.

Local Abbreviation fit :=
  (fit_regression_net randperm Adam train_step eval_loss).

(** X6. When every retained sample is a validation sample
    ([num_validation_examples = num_train], as with
    [validation_fraction = 1.0]), the normalisation of the first training
    pass divides by zero: the call raises ZeroDivisionError before
    anything is printed. *)
Theorem all_samples_in_validation_raises
        (fuel : nat) (net0 : StateDict) (theta : list Row)
        (label : list Target) (num_train bs : Z) (lr vf : float)
        (stop_after_epochs max_epochs : Z) (g g' : Gen)
        (ld : Loaders Row Target) :
  data_loader randperm theta label num_train bs vf g = Ok (ld, g') ->
  num_validation_examples ld = num_train ->
  fit (S fuel) net0 theta label num_train bs lr vf
      stop_after_epochs max_epochs g
  = (Raised ZeroDivisionError, []).
Proof.
  intros Hd Hn. unfold fit_regression_net. rewrite Hd.
  rewrite loop_step by reflexivity.
  unfold epoch, training_pass.
  destruct (iterate randperm (train_loader ld) _) as [batches g1].
  destruct (train_batches _ _ _ _) as [total w1].
  now rewrite Hn, Z.sub_diag, true_divide_zero.
Qed.

Section Loop.

Variable loaders : Loaders Row Target.
Variables num_train stop_after_epochs max_epochs : Z.

Local Abbreviation epoch' :=
  (epoch randperm train_step eval_loss loaders num_train).
Local Abbreviation loop :=
  (while_not_converged randperm train_step eval_loss loaders num_train
     stop_after_epochs max_epochs).

(** The epochs logged since the snapshot was taken are counted by
    [epochs_since_last_improvement], and none of them improved on it. *)
Lemma since_snapshot_step
      (past : list (EpochLog StateDict)) (st st1 : LoopState StateDict Opt Gen)
      (l : EpochLog StateDict) :
  (forall sd0, best_model_state_dict st = Some sd0 ->
     exists pre best tail,
       past = pre ++ best :: tail /\ sd0 = checked_state best /\
       best_validation_log_prob st = validation_loss best /\
       never_below (validation_loss best) tail = true /\
       Z.of_nat (length tail) = epochs_since_last_improvement st) ->
  epoch' st = Ok (st1, l) ->
  forall sd,
  best_model_state_dict st1 = Some sd ->
  exists pre best tail,
    past ++ [l] = pre ++ best :: tail /\ sd = checked_state best /\
    best_validation_log_prob st1 = validation_loss best /\
    never_below (validation_loss best) tail = true /\
    Z.of_nat (length tail) = epochs_since_last_improvement st1.
Proof.
  intros Hinv He sd Hsd. apply epoch_inv in He as [Hst1 Hnet].
  destruct (improvement_check_spec st (world st1) (validation_loss l)
              (epochs st + 1)) as (_ & _ & _ & Hyes & Hno).
  rewrite <- Hst1 in Hyes, Hno.
  destruct (flt (validation_loss l) (best_validation_log_prob st)) eqn:E.
  - destruct (Hyes eq_refl) as (Hb & Hs & Hi).
    exists past, l, []. rewrite Hs, Hnet in Hsd. inversion Hsd.
    cbn. now rewrite Hi.
  - destruct (Hno eq_refl) as (Hb & Hs & Hi). rewrite Hs in Hsd.
    destruct (Hinv sd Hsd) as (pre & best & tail & Hp & Hc & Hv & Hnb & Hlen).
    exists pre, best, (tail ++ [l]). rewrite Hp, <- app_assoc. cbn [app].
    repeat split; auto.
    + congruence.
    + rewrite never_below_app, Hnb. cbn. now rewrite <- Hv, E.
    + rewrite length_app. cbn [length]. lia.
Qed.

Lemma loop_returns_at_patience (fuel : nat) :
  forall (st : LoopState StateDict Opt Gen)
         (past ls : list (EpochLog StateDict)) (net : StateDict),
    converged st = false ->
    (forall sd0, best_model_state_dict st = Some sd0 ->
       exists pre best tail,
         past = pre ++ best :: tail /\ sd0 = checked_state best /\
         best_validation_log_prob st = validation_loss best /\
         never_below (validation_loss best) tail = true /\
         Z.of_nat (length tail) = epochs_since_last_improvement st) ->
    (best_model_state_dict st = None \/
     epochs_since_last_improvement st <= stop_after_epochs - 1) ->
    loop fuel st = (Returned net, ls) ->
    exists pre best tail,
      past ++ ls = pre ++ best :: tail /\ net = checked_state best /\
      never_below (validation_loss best) tail = true /\
      Z.of_nat (length tail) <= Z.max 0 stop_after_epochs /\
      (epochs st + Z.of_nat (length ls) <= max_epochs ->
       Z.of_nat (length tail) = Z.max 0 stop_after_epochs).
Proof.
  induction fuel as [|fuel IH]; intros st past ls net Ec Hinv Hhead Hrun.
  - cbn in Hrun. rewrite Ec in Hrun. discriminate.
  - rewrite (loop_step _ _ _ _ _ _ _ _ _ Ec) in Hrun.
    destruct (epoch' st) as [[st1 l]|] eqn:He; [|discriminate].
    pose proof (since_snapshot_step _ _ _ _ Hinv He) as Hinv1.
    apply epoch_inv in He as [Hst1 _].
    destruct (improvement_check_spec st (world st1) (validation_loss l)
                (epochs st + 1)) as (_ & Hep & Hc1 & Hyes & Hno).
    rewrite <- Hst1 in Hep, Hc1, Hyes, Hno. rewrite Ec in Hc1.
    destruct (stops stop_after_epochs max_epochs st1) eqn:Es.
    + destruct (best_model_state_dict st1) as [sd|] eqn:Eb.
      2:{ rewrite (termination_check_none _ _ _ Es Eb) in Hrun.
          discriminate. }
      destruct (termination_check_some _ _ _ _ Es Eb)
        as (st2 & Ht & Hc2 & Hn2 & _).
      rewrite Ht, (loop_converged _ _ _ _ _ _ _ _ _ Hc2), Hn2 in Hrun.
      inversion Hrun; subst net ls; clear Hrun.
      destruct (Hinv1 sd eq_refl)
        as (pre & best & tail & Hp & Hsd & _ & Hnb & Hlen).
      exists pre, best, tail. repeat split; auto.
      * rewrite Hlen.
        destruct (flt (validation_loss l) (best_validation_log_prob st)).
        -- destruct (Hyes eq_refl) as (_ & _ & ->). lia.
        -- destruct (Hno eq_refl) as (_ & Hs & ->).
           destruct Hhead as [Hh|Hh]; [congruence|lia].
      * cbn [length]. intros Hbudget. unfold stops in Es.
        assert (Eq : (epochs st1 >? max_epochs) = false)
          by (rewrite Z.gtb_ltb; apply Z.ltb_ge; lia).
        rewrite Eq in Es. cbn in Es. rewrite Z.gtb_ltb in Es.
        apply Z.ltb_lt in Es.
        assert (Z.of_nat (length tail) <= Z.max 0 stop_after_epochs).
        { rewrite Hlen.
          destruct (flt (validation_loss l) (best_validation_log_prob st)).
          - destruct (Hyes eq_refl) as (_ & _ & ->). lia.
          - destruct (Hno eq_refl) as (_ & Hs & ->).
            destruct Hhead as [Hh|Hh]; [congruence|lia]. }
        lia.
    + rewrite (termination_check_quiet _ _ _ Es) in Hrun.
      destruct (loop fuel st1) as [o ls'] eqn:Hl.
      inversion Hrun; subst o ls; clear Hrun.
      unfold stops in Es. apply orb_false_iff in Es as [_ Es].
      rewrite Z.gtb_ltb in Es. apply Z.ltb_ge in Es.
      destruct (IH st1 (past ++ [l]) ls' net Hc1 Hinv1 (or_intror Es) Hl)
        as (pre & best & tail & Hp & Hsd & Hnb & Hle & Heq).
      exists pre, best, tail.
      rewrite <- app_assoc in Hp. cbn [app] in Hp.
      repeat split; auto.
      intros Hbudget. apply Heq. cbn [length] in Hbudget. lia.
Qed.

(** A run that ends in [load_state_dict(None)] has logged no loss below
    the sentinel. *)
Lemma loop_raises_without_snapshot (fuel : nat) :
  forall (st : LoopState StateDict Opt Gen)
         (past ls : list (EpochLog StateDict)),
    converged st = false ->
    best_so_far past st ->
    loop fuel st = (Raised InvalidStateDict, ls) ->
    never_below f1e10 (past ++ ls) = true /\ (1 <= length ls)%nat.
Proof.
  induction fuel as [|fuel IH]; intros st past ls Ec Hinv Hrun.
  - cbn in Hrun. rewrite Ec in Hrun. discriminate.
  - rewrite (loop_step _ _ _ _ _ _ _ _ _ Ec) in Hrun.
    destruct (epoch' st) as [[st1 l]|e] eqn:He.
    2:{ inversion Hrun; subst.
        apply epoch_raises in He. destruct He; discriminate. }
    pose proof (best_so_far_step _ _ _ _ _ _ _ _ _ Hinv He) as Hinv1.
    apply epoch_inv in He as [Hst1 _].
    destruct (improvement_check_spec st (world st1) (validation_loss l)
                (epochs st + 1)) as (_ & _ & Hc1 & _).
    rewrite <- Hst1 in Hc1. rewrite Ec in Hc1.
    destruct (stops stop_after_epochs max_epochs st1) eqn:Es.
    + destruct (best_model_state_dict st1) as [sd|] eqn:Eb.
      * destruct (termination_check_some _ _ _ _ Es Eb)
          as (st2 & Ht & Hc2 & _).
        rewrite Ht, (loop_converged _ _ _ _ _ _ _ _ _ Hc2) in Hrun.
        discriminate.
      * rewrite (termination_check_none _ _ _ Es Eb) in Hrun.
        inversion Hrun; subst ls. unfold best_so_far in Hinv1.
        rewrite Eb in Hinv1. split; [apply Hinv1|cbn; lia].
    + rewrite (termination_check_quiet _ _ _ Es) in Hrun.
      destruct (loop fuel st1) as [o ls'] eqn:Hl.
      inversion Hrun; subst o ls; clear Hrun.
      destruct (IH st1 (past ++ [l]) ls' Hc1 Hinv1 Hl) as [Hnb _].
      rewrite <- app_assoc in Hnb. split; [exact Hnb|cbn; lia].
Qed.

End Loop.

(** X7. Early stopping happens exactly [stop_after_epochs] epochs after
    the epoch of the returned snapshot: in every returned run the log
    ends with the epoch whose parameters are returned followed by at most
    [max(0, stop_after_epochs)] epochs, none of which improved on it, and
    by exactly that many unless the run used up the epoch budget. *)
Theorem returns_at_patience
        (fuel : nat) (net0 : StateDict) (theta : list Row)
        (label : list Target) (num_train bs : Z) (lr vf : float)
        (stop_after_epochs max_epochs : Z) (g : Gen)
        (net : StateDict) (log : list (EpochLog StateDict)) :
  fit fuel net0 theta label num_train bs lr vf stop_after_epochs max_epochs g
  = (Returned net, log) ->
  exists pre best tail,
    log = pre ++ best :: tail /\ net = checked_state best /\
    never_below (validation_loss best) tail = true /\
    Z.of_nat (length tail) <= Z.max 0 stop_after_epochs /\
    (Z.of_nat (length log) <= max_epochs ->
     Z.of_nat (length tail) = Z.max 0 stop_after_epochs).
Proof.
  unfold fit_regression_net.
  destruct (data_loader _ _ _ _ _ _ _) as [[ld g']|]; [|discriminate].
  intros H.
  apply (loop_returns_at_patience ld num_train stop_after_epochs max_epochs
           fuel _ [] log net) in H; auto.
  cbn. discriminate.
Qed.

(** X8. [load_state_dict(None)] is reached only by a run without any
    improvement: when the call raises that error, at least one epoch was
    logged and no logged validation loss was below the sentinel 1e10. *)
Theorem invalid_state_dict_only_without_improvement
        (fuel : nat) (net0 : StateDict) (theta : list Row)
        (label : list Target) (num_train bs : Z) (lr vf : float)
        (stop_after_epochs max_epochs : Z) (g : Gen)
        (log : list (EpochLog StateDict)) :
  fit fuel net0 theta label num_train bs lr vf stop_after_epochs max_epochs g
  = (Raised InvalidStateDict, log) ->
  never_below f1e10 log = true /\ (1 <= length log)%nat.
Proof.
  unfold fit_regression_net.
  destruct (data_loader _ _ _ _ _ _ _) as [[ld g']|e] eqn:Hd.
  - intros H.
    apply (loop_raises_without_snapshot ld num_train stop_after_epochs
             max_epochs fuel _ [] log) in H; [exact H|reflexivity|].
    cbn. now split.
  - intros H. inversion H; subst.
    apply data_loader_raises in Hd. destruct Hd as [Hd|[Hd|Hd]]; discriminate.
Qed.

End Stopping.

(** ** The further properties on the scripted world *)

Lemma only_the_leading_samples_are_used_witness :
  data_loader Scripted.randperm (repeat tt 8) (repeat tt 8) 6 1
    Scripted.f0_5 0%nat
  = Ok (Scripted.loaders6, 1%nat) /\
  ds_theta (dataset (train_loader Scripted.loaders6))
  = firstn 6 (repeat tt 8) /\
  forall i, In i [0; 1; 2]%nat \/ In i [3; 4; 5]%nat -> (i < 6)%nat.
Proof.
  assert (H : data_loader Scripted.randperm (repeat tt 8) (repeat tt 8) 6 1
                Scripted.f0_5 0%nat = Ok (Scripted.loaders6, 1%nat))
    by (vm_compute; reflexivity).
  split; [exact H|].
  destruct (only_the_leading_samples_are_used Scripted.randperm
              scripted_randperm_perm _ _ _ _ _ _ _ _ H)
    as (H1 & _ & _ & _ & H5).
  exact (conj H1 H5).
Defined.

Lemma batches_respect_the_split_witness :
  data_loader Scripted.randperm Scripted.six Scripted.six 6 1
    Scripted.f0_5 0%nat
  = Ok (Scripted.loaders6, 1%nat) /\
  NoDup (concat (fst (iterate Scripted.randperm
                        (train_loader Scripted.loaders6) 1%nat))) /\
  forall b i,
    In b (fst (iterate Scripted.randperm
                 (train_loader Scripted.loaders6) 1%nat)) ->
    In i b ->
    In i (indices (train_loader Scripted.loaders6)) /\
    ~ In i (indices (val_loader Scripted.loaders6)).
Proof.
  assert (H : data_loader Scripted.randperm Scripted.six Scripted.six 6 1
                Scripted.f0_5 0%nat = Ok (Scripted.loaders6, 1%nat))
    by (vm_compute; reflexivity).
  split; [exact H|].
  destruct (batches_respect_the_split Scripted.randperm
              scripted_randperm_perm _ _ _ _ _ _ _ _ 1%nat H)
    as (_ & H2 & _ & H4 & _).
  exact (conj H2 H4).
Defined.

Lemma split_sizes_witness :
  data_loader Scripted.randperm Scripted.six Scripted.six 6 1
    Scripted.f0_5 0%nat
  = Ok (Scripted.loaders6, 1%nat) /\
  (length (indices (train_loader Scripted.loaders6))
   + length (indices (val_loader Scripted.loaders6)) = 6)%nat /\
  Z.of_nat (length (indices (val_loader Scripted.loaders6))) = 3.
Proof.
  assert (H : data_loader Scripted.randperm Scripted.six Scripted.six 6 1
                Scripted.f0_5 0%nat = Ok (Scripted.loaders6, 1%nat))
    by (vm_compute; reflexivity).
  split; [exact H|].
  destruct (split_sizes Scripted.randperm scripted_randperm_perm
              _ _ _ _ _ _ _ _ H) as (H1 & H2).
  split; [exact H1|]. apply H2. vm_compute. split; intro; discriminate.
Defined.

Lemma validation_pass_has_a_batch_witness :
  data_loader Scripted.randperm Scripted.six Scripted.six 6 5
    Scripted.f0_5 0%nat
  = Ok (Scripted.loaders6_wide, 1%nat) /\
  (1 <= length (fst (iterate Scripted.randperm
                       (val_loader Scripted.loaders6_wide) 2%nat)))%nat /\
  exists b,
    fst (iterate Scripted.randperm
           (val_loader Scripted.loaders6_wide) 2%nat) = [b] /\
    Permutation b (indices (val_loader Scripted.loaders6_wide)).
Proof.
  assert (H : data_loader Scripted.randperm Scripted.six Scripted.six 6 5
                Scripted.f0_5 0%nat = Ok (Scripted.loaders6_wide, 1%nat))
    by (vm_compute; reflexivity).
  split; [exact H|].
  destruct (validation_pass_has_a_batch Scripted.randperm
              scripted_randperm_perm _ _ _ _ _ _ _ _ 2%nat H)
    as (H1 & H2); [vm_compute; intro; discriminate|].
  split; [exact H1|]. apply H2. vm_compute. intro. discriminate.
Defined.

Lemma training_pass_without_a_full_batch_witness :
  training_pass Scripted.randperm Scripted.train_step
    Scripted.loaders6_wide 6 Scripted.world0
  = Ok (S754_zero false,
        {| neural_net := 0%nat; optimizer := tt; generator := 2%nat |}) /\
  neural_net {| neural_net := 0%nat; optimizer := tt; generator := 2%nat |}
  = neural_net Scripted.world0.
Proof.
  assert (H : training_pass Scripted.randperm Scripted.train_step
                Scripted.loaders6_wide 6 Scripted.world0
              = Ok (S754_zero false,
                    {| neural_net := 0%nat; optimizer := tt;
                       generator := 2%nat |}))
    by (vm_compute; reflexivity).
  split; [exact H|].
  destruct (training_pass_without_a_full_batch Scripted.randperm
              scripted_randperm_perm Scripted.train_step
              Scripted.loaders6_wide 6 _ _ _ ltac:(cbn; lia) H)
    as (H1 & _).
  exact H1.
Defined.

Lemma all_samples_in_validation_raises_witness :
  data_loader Scripted.randperm [tt; tt] [tt; tt] 2 1 (Z2F 1) 0%nat
  = Ok (Scripted.all_validation, 1%nat) /\
  fit_regression_net Scripted.randperm Scripted.Adam Scripted.train_step
    (Scripted.eval_loss Scripted.late_best) 10
    0%nat [tt; tt] [tt; tt] 2 1 f0_1 (Z2F 1) 20 1000 0%nat
  = (Raised ZeroDivisionError, []).
Proof.
  assert (H : data_loader Scripted.randperm [tt; tt] [tt; tt] 2 1 (Z2F 1)
                0%nat = Ok (Scripted.all_validation, 1%nat))
    by (vm_compute; reflexivity).
  split; [exact H|].
  exact (all_samples_in_validation_raises Scripted.randperm Scripted.Adam
           Scripted.train_step (Scripted.eval_loss Scripted.late_best)
           9 0%nat [tt; tt] [tt; tt] 2 1 f0_1 (Z2F 1) 20 1000 0%nat 1%nat
           Scripted.all_validation H eq_refl).
Defined.

Lemma returns_at_patience_witness :
  Scripted.fit Scripted.late_best 2 1000 10
  = (Returned 4%nat,
     [Scripted.entry 1 (Z2F 5); Scripted.entry 2 (Z2F 3);
      Scripted.entry 3 (Z2F 4); Scripted.entry 4 (Z2F 2);
      Scripted.entry 5 (Z2F 3); Scripted.entry 6 nan]) /\
  exists pre best tail,
    [Scripted.entry 1 (Z2F 5); Scripted.entry 2 (Z2F 3);
     Scripted.entry 3 (Z2F 4); Scripted.entry 4 (Z2F 2);
     Scripted.entry 5 (Z2F 3); Scripted.entry 6 nan]
    = pre ++ best :: tail /\
    4%nat = checked_state best /\
    never_below (validation_loss best) tail = true /\
    Z.of_nat (length tail) <= Z.max 0 2 /\
    (Z.of_nat 6 <= 1000 -> Z.of_nat (length tail) = Z.max 0 2).
Proof.
  assert (H : Scripted.fit Scripted.late_best 2 1000 10
              = (Returned 4%nat,
                 [Scripted.entry 1 (Z2F 5); Scripted.entry 2 (Z2F 3);
                  Scripted.entry 3 (Z2F 4); Scripted.entry 4 (Z2F 2);
                  Scripted.entry 5 (Z2F 3); Scripted.entry 6 nan]))
    by (vm_compute; reflexivity).
  split; [exact H|].
  exact (returns_at_patience Scripted.randperm Scripted.Adam
           Scripted.train_step (Scripted.eval_loss Scripted.late_best)
           _ _ _ _ _ _ _ _ _ _ _ _ _ H).
Defined.

Lemma invalid_state_dict_only_without_improvement_witness :
  Scripted.fit Scripted.all_nan 2 3 4
  = (Raised InvalidStateDict, [Scripted.entry 1 nan; Scripted.entry 2 nan]) /\
  never_below f1e10 [Scripted.entry 1 nan; Scripted.entry 2 nan] = true /\
  (1 <= length [Scripted.entry 1 nan; Scripted.entry 2 nan])%nat.
Proof.
  assert (H : Scripted.fit Scripted.all_nan 2 3 4
              = (Raised InvalidStateDict,
                 [Scripted.entry 1 nan; Scripted.entry 2 nan]))
    by (vm_compute; reflexivity).
  split; [exact H|].
  exact (invalid_state_dict_only_without_improvement Scripted.randperm
           Scripted.Adam Scripted.train_step
           (Scripted.eval_loss Scripted.all_nan)
           _ _ _ _ _ _ _ _ _ _ _ _ H).
Defined.

Lemma validation_loss_on_one_batch_witness :
  data_loader Scripted.randperm Scripted.six Scripted.six 6 5
    Scripted.f0_5 0%nat
  = Ok (Scripted.loaders6_wide, 1%nat) /\
  validation_pass Scripted.randperm (Scripted.eval_loss Scripted.late_best)
    Scripted.loaders6_wide
    {| neural_net := 1%nat; optimizer := tt; generator := 2%nat |}
  = Ok (fdiv (fadd (Z2F 0) (Z2F 5)) (Z2F 3),
        {| neural_net := 1%nat; optimizer := tt; generator := 3%nat |}) /\
  exists b d,
    Permutation b (indices (val_loader Scripted.loaders6_wide)) /\
    float_of_int (num_validation_examples Scripted.loaders6_wide) = Ok d /\
    fdiv (fadd (Z2F 0) (Z2F 5)) (Z2F 3)
    = fdiv (fadd (Z2F 0)
              (Scripted.eval_loss Scripted.late_best
                 (dataset (val_loader Scripted.loaders6_wide)) b 1%nat))
        d.
Proof.
  assert (H : data_loader Scripted.randperm Scripted.six Scripted.six 6 5
                Scripted.f0_5 0%nat = Ok (Scripted.loaders6_wide, 1%nat))
    by (vm_compute; reflexivity).
  assert (Hv : validation_pass Scripted.randperm
                 (Scripted.eval_loss Scripted.late_best)
                 Scripted.loaders6_wide
                 {| neural_net := 1%nat; optimizer := tt;
                    generator := 2%nat |}
               = Ok (fdiv (fadd (Z2F 0) (Z2F 5)) (Z2F 3),
                     {| neural_net := 1%nat; optimizer := tt;
                        generator := 3%nat |}))
    by (vm_compute; reflexivity).
  split; [exact H|]. split; [exact Hv|].
  destruct (validation_loss_on_one_batch Scripted.randperm
              scripted_randperm_perm
              (Scripted.eval_loss Scripted.late_best)
              _ _ _ _ _ _ _ _ _ _ _ H
              ltac:(vm_compute; intro; discriminate)
              ltac:(vm_compute; intro; discriminate) Hv)
    as (_ & _ & Hex).
  exact Hex.
Defined.

(** ** Where a division by zero can come from *)

Lemma true_divide_zero_division (acc : num) (d : Z) :
  true_divide acc d = Raise ZeroDivisionError -> d = 0.
Proof.
  unfold true_divide, float_of_int.
  destruct (Z.eqb_spec d 0) as [E|E]; [auto|].
  destruct acc as [a|f].
  - destruct (fdiv _ _); discriminate.
  - destruct (Z2F d); cbn; discriminate.
Qed.

Section ZeroDivision.

Context {Row Target StateDict Opt Gen : Type}.
Variable randperm : Gen -> nat -> list nat * Gen.
Variable Adam : StateDict -> float -> Opt.
Variable train_step :
  Dataset Row Target -> list nat -> World StateDict Opt Gen ->
  float * World StateDict Opt Gen.
Variable eval_loss : Dataset Row Target -> list nat -> StateDict -> float.

Lemma epoch_zero_division (loaders : Loaders Row Target) (num_train : Z)
      (st : LoopState StateDict Opt Gen) :
  epoch randperm train_step eval_loss loaders num_train st
  = Raise ZeroDivisionError ->
  num_train - num_validation_examples loaders = 0 \/
  num_validation_examples loaders = 0.
Proof.
  unfold epoch, training_pass, validation_pass.
  destruct (iterate randperm (train_loader loaders) _) as [b1 g1].
  destruct (train_batches _ _ _ _) as [total w1].
  destruct (true_divide total _) eqn:E1; cbn [bind].
  - destruct (iterate randperm (val_loader loaders) _) as [b2 g2].
    destruct (true_divide _ (num_validation_examples loaders)) eqn:E2;
      cbn [bind]; [discriminate|].
    intros H; inversion H; subst. right.
    eapply true_divide_zero_division, E2.
  - intros H; inversion H; subst. left.
    eapply true_divide_zero_division, E1.
Qed.

Lemma loop_zero_division (loaders : Loaders Row Target)
      (num_train stop_after_epochs max_epochs : Z) (fuel : nat) :
  forall (st : LoopState StateDict Opt Gen) (ls : list (EpochLog StateDict)),
    converged st = false ->
    while_not_converged randperm train_step eval_loss loaders num_train
      stop_after_epochs max_epochs fuel st
    = (Raised ZeroDivisionError, ls) ->
    num_train - num_validation_examples loaders = 0 \/
    num_validation_examples loaders = 0.
Proof.
  induction fuel as [|fuel IH]; intros st ls Ec Hrun.
  - cbn in Hrun. rewrite Ec in Hrun. discriminate.
  - rewrite (loop_step _ _ _ _ _ _ _ _ _ Ec) in Hrun.
    destruct (epoch _ _ _ _ _ st) as [[st1 l]|e] eqn:He.
    2:{ inversion Hrun; subst. eapply epoch_zero_division, He. }
    apply epoch_inv in He as [Hst1 _].
    destruct (improvement_check_spec st (world st1) (validation_loss l)
                (epochs st + 1)) as (_ & _ & Hc1 & _).
    rewrite <- Hst1 in Hc1. rewrite Ec in Hc1.
    destruct (stops stop_after_epochs max_epochs st1) eqn:Es.
    + destruct (best_model_state_dict st1) as [sd|] eqn:Eb.
      * destruct (termination_check_some _ _ _ _ Es Eb)
          as (st2 & Ht & Hc2 & _).
        rewrite Ht, (loop_converged _ _ _ _ _ _ _ _ _ Hc2) in Hrun.
        discriminate.
      * rewrite (termination_check_none _ _ _ Es Eb) in Hrun.
        discriminate.
    + rewrite (termination_check_quiet _ _ _ Es) in Hrun.
      destruct (while_not_converged _ _ _ _ _ _ _ fuel st1)
        as [o ls'] eqn:Hl.
      inversion Hrun; subst o ls. eapply IH; eassumption.
Qed.

(** X10. A ZeroDivisionError of [fit_regression_net] always comes from
    the training normalisation of the first epoch: since the loaders are
    only built for a positive validation batch size, the call raises
    ZeroDivisionError only when [num_validation_examples = num_train],
    and then before anything is logged. *)
Theorem zero_division_only_in_training_normalization
        (fuel : nat) (net0 : StateDict) (theta : list Row)
        (label : list Target) (num_train bs : Z) (lr vf : float)
        (stop_after_epochs max_epochs : Z) (g : Gen)
        (log : list (EpochLog StateDict)) :
  fit_regression_net randperm Adam train_step eval_loss fuel net0 theta
    label num_train bs lr vf stop_after_epochs max_epochs g
  = (Raised ZeroDivisionError, log) ->
  log = [] /\
  exists ld g',
    data_loader randperm theta label num_train bs vf g = Ok (ld, g') /\
    0 < num_validation_examples ld /\
    num_validation_examples ld = num_train.
Proof.
  unfold fit_regression_net.
  destruct (data_loader _ _ _ _ _ _ _) as [[ld g']|e] eqn:Hd.
  2:{ intros H; inversion H; subst. apply data_loader_raises in Hd.
      destruct Hd as [Hd|[Hd|Hd]]; discriminate. }
  intros H.
  pose proof (data_loader_inv _ _ _ _ _ _ _ _ _ Hd)
    as (k & _ & _ & _ & _ & _ & Hpos).
  assert (Hn : num_validation_examples ld = num_train).
  { apply loop_zero_division in H; [|reflexivity]. lia. }
  split; [|exists ld, g'; auto].
  destruct fuel as [|fuel]; [discriminate|].
  rewrite loop_step in H by reflexivity.
  unfold epoch, training_pass in H.
  destruct (iterate randperm (train_loader ld) _) as [batches g1].
  destruct (train_batches _ _ _ _) as [total w1].
  rewrite Hn, Z.sub_diag, true_divide_zero in H. cbn in H.
  now inversion H.
Qed.

End ZeroDivision.

Lemma zero_division_only_in_training_normalization_witness :
  fit_regression_net Scripted.randperm Scripted.Adam Scripted.train_step
    (Scripted.eval_loss Scripted.late_best) 10
    0%nat [tt; tt] [tt; tt] 2 1 f0_1 (Z2F 1) 20 1000 0%nat
  = (Raised ZeroDivisionError, []) /\
  exists ld g',
    data_loader Scripted.randperm [tt; tt] [tt; tt] 2 1 (Z2F 1) 0%nat
    = Ok (ld, g') /\
    0 < num_validation_examples ld /\
    num_validation_examples ld = 2.
Proof.
  assert (H : fit_regression_net Scripted.randperm Scripted.Adam
                Scripted.train_step (Scripted.eval_loss Scripted.late_best)
                10 0%nat [tt; tt] [tt; tt] 2 1 f0_1 (Z2F 1) 20 1000 0%nat
              = (Raised ZeroDivisionError, []))
    by (vm_compute; reflexivity).
  split; [exact H|].
  exact (proj2 (zero_division_only_in_training_normalization
                  Scripted.randperm Scripted.Adam Scripted.train_step
                  (Scripted.eval_loss Scripted.late_best)
                  _ _ _ _ _ _ _ _ _ _ _ _ H)).
Defined.
